(** * Kyvex gateway: the stream aggregation of [app.py]

    A shallow embedding of [clean_token], [MODEL_MAP], [process_kyvex_request]
    and [process_imagen_specific], and the properties of the aggregation
    engine that its specification states.

    Conventions of the model.
    - A Python [str] is a [string]; the character with code [n] stands for the
      code point [n], so the model covers the text whose code points are
      below 256.  [isspace] and [lower] are Python's on that range.
    - A decoded JSON document is a [value] (Python's None, bool, int, float,
      str, list, dict).  A dict is an association list in insertion order.
    - [json.loads] is a library function: the aggregation functions take the
      decoder as a Section variable [loads], whose answer is a [decoded]: the
      value, JSONDecodeError, or another exception raised by the library.
      [json_loads] is a decoder written here for the concrete runs.
    - A raised Python exception is a value of [exn]; [except Exception] is the
      [try_except] combinator.
    - The request headers, the browserId cookie and the constant payload
      fields inputAudio and files are left out: no result depends on them. *)

From Stdlib Require Import Strings.String Strings.Ascii Lists.List ZArith.ZArith
  Bool.Bool Arith.PeanoNat micromega.Lia Floats.PrimFloat
  Sorting.Permutation.
Import ListNotations.

#[local] Set Warnings "-register-all".

Local Open Scope list_scope.
Local Open Scope string_scope.
Local Open Scope bool_scope.

(** ** Characters and Python's string methods *)

Module Py.

Definition code (c : ascii) : nat := nat_of_ascii c.

Definition quote : ascii := ascii_of_nat 34.
Definition newline : ascii := ascii_of_nat 10.
Definition tab : ascii := ascii_of_nat 9.
Definition backslash : ascii := ascii_of_nat 92.

(** [str.isspace] on one code point below 256: TAB, LF, VT, FF, CR, the
    separators 28 to 31, SPACE, NEL (133) and NBSP (160). *)
Definition isspace (c : ascii) : bool :=
  let n := code c in
  (((9 <=? n) && (n <=? 13)) || ((28 <=? n) && (n <=? 32))
   || (n =? 133) || (n =? 160))%nat.

(** [str.lower] on one code point below 256: A to Z, and the Latin-1 capitals
    192 to 222 except the multiplication sign 215, move up by 32. *)
Definition lower_char (c : ascii) : ascii :=
  let n := code c in
  if (((65 <=? n) && (n <=? 90))
      || ((192 <=? n) && (n <=? 222) && negb (n =? 215)))%nat
  then ascii_of_nat (n + 32) else c.

Fixpoint lower (s : string) : string :=
  match s with
  | EmptyString => EmptyString
  | String c s' => String (lower_char c) (lower s')
  end.

Fixpoint lstrip (s : string) : string :=
  match s with
  | EmptyString => EmptyString
  | String c s' => if isspace c then lstrip s' else s
  end.

Fixpoint rstrip (s : string) : string :=
  match s with
  | EmptyString => EmptyString
  | String c s' =>
      match rstrip s' with
      | EmptyString => if isspace c then EmptyString else String c EmptyString
      | r => String c r
      end
  end.

(** [s.strip()] *)
Definition strip (s : string) : string := rstrip (lstrip s).

(** [s.startswith(p)] *)
Definition startswith (p s : string) : bool := String.prefix p s.

(** [s.endswith(p)] *)
Fixpoint endswith (p s : string) : bool :=
  (p =? s) ||
  match s with
  | EmptyString => false
  | String _ s' => endswith p s'
  end.

(** [s[n:]] *)
Fixpoint drop (n : nat) (s : string) : string :=
  match n, s with
  | O, _ => s
  | S _, EmptyString => EmptyString
  | S k, String _ s' => drop k s'
  end.

(** [s[:n]] *)
Definition take (n : nat) (s : string) : string := String.substring 0 n s.

(** [p in s] for two strings *)
Fixpoint contains (p s : string) : bool :=
  String.prefix p s ||
  match s with
  | EmptyString => false
  | String _ s' => contains p s'
  end.

(** [s.replace(old, new)] for a non-empty [old]: the scan goes left to right;
    where [old] starts, [new] is written and the characters of [old] are
    skipped ([skip] counts those still to skip), so matches do not overlap. *)
Fixpoint replace_from (old new : string) (skip : nat) (s : string) : string :=
  match s with
  | EmptyString => EmptyString
  | String c s' =>
      match skip with
      | S k => replace_from old new k s'
      | O =>
          if String.prefix old s
          then new ++ replace_from old new (String.length old - 1) s'
          else String c (replace_from old new 0 s')
      end
  end.

(** With an empty [old], Python writes [new] before every character and at
    the end. *)
Fixpoint intersperse (new s : string) : string :=
  match s with
  | EmptyString => new
  | String c s' => new ++ String c (intersperse new s')
  end.

Definition replace (old new s : string) : string :=
  match old with
  | EmptyString => intersperse new s
  | _ => replace_from old new 0 s
  end.

(** The maximal run of characters of the class [cls] at the start of [s]
    (a greedy [[...]*]). *)
Fixpoint span (cls : ascii -> bool) (s : string) : string :=
  match s with
  | EmptyString => EmptyString
  | String c s' => if cls c then String c (span cls s') else EmptyString
  end.

(** A match of a pattern of the shape [lit([cls]+)] that starts at the first
    character of [s]: [lit], then at least one character of the class; the
    result is the greedy run captured after [lit]. *)
Definition match_here (lit : string) (cls : ascii -> bool) (s : string)
  : option string :=
  if String.prefix lit s
  then match span cls (drop (String.length lit) s) with
       | EmptyString => None
       | run => Some run
       end
  else None.

(** [re.search] for such a pattern: the leftmost place where it matches. *)
Fixpoint search_run (lit : string) (cls : ascii -> bool) (s : string)
  : option string :=
  match match_here lit cls s with
  | Some run => Some run
  | None =>
      match s with
      | EmptyString => None
      | String _ s' => search_run lit cls s'
      end
  end.

End Py.

(** ** Decoded values and exceptions *)

Inductive value : Type :=
| VNone
| VBool (b : bool)
| VInt (n : Z)
| VFloat (f : float)
| VStr (s : string)
| VList (l : list value)
| VDict (d : list (string * value)).

(** Python's truth value of a decoded document ([bool(v)]). *)
Definition truthy (v : value) : bool :=
  match v with
  | VNone => false
  | VBool b => b
  | VInt n => negb (n =? 0)%Z
  | VFloat f => negb (PrimFloat.eqb f 0%float)
  | VStr s => negb (s =? "")
  | VList l => match l with [] => false | _ => true end
  | VDict d => match d with [] => false | _ => true end
  end.

Definition dict := list (string * value).

Fixpoint dict_lookup (k : string) (d : dict) : option value :=
  match d with
  | [] => None
  | (k', v) :: d' => if k =? k' then Some v else dict_lookup k d'
  end.

(** [d.get(k)]: None when the key is absent. *)
Definition dict_get (k : string) (d : dict) : value :=
  match dict_lookup k d with Some v => v | None => VNone end.

(** [d.get(k, default)] *)
Definition dict_get_default (k : string) (default : value) (d : dict) : value :=
  match dict_lookup k d with Some v => v | None => default end.

(** [k in d] *)
Definition dict_has (k : string) (d : dict) : bool :=
  match dict_lookup k d with Some _ => true | None => false end.

(** [d[k] = v]: an existing key keeps its place. *)
Fixpoint dict_set (k : string) (v : value) (d : dict) : dict :=
  match d with
  | [] => [(k, v)]
  | (k', v') :: d' =>
      if k =? k' then (k, v) :: d' else (k', v') :: dict_set k v d'
  end.

(** [v == s] for a string literal [s]. *)
Definition is_str (s : string) (v : value) : bool :=
  match v with VStr t => t =? s | _ => false end.

Inductive exn : Type :=
| AttributeError
| TypeError
| ValueError
| RecursionError
| TransportError (description : string).

Inductive except (A : Type) : Type :=
| OK (a : A)
| Raise (e : exn).
Arguments OK {A} a.
Arguments Raise {A} e.

(** What [json.loads(text)] does: it returns the decoded value, raises
    JSONDecodeError on a text that is no JSON, or raises another exception
    (ValueError on an integer literal beyond the digit limit of the
    interpreter, RecursionError on a nesting beyond its recursion limit). *)
Inductive decoded : Type :=
| Decoded (v : value)
| DecodeError
| DecodeRaises (e : exn).

Definition bind {A B} (m : except A) (k : A -> except B) : except B :=
  match m with OK a => k a | Raise e => Raise e end.

Notation "x <- m ;; k" := (bind m (fun x => k))
  (at level 61, m at next level, right associativity).

(** [needle in hay] where [hay] is any decoded value: substring test on a str,
    membership on a list, key membership on a dict; the other types are not
    iterable. *)
Definition py_in (needle : string) (hay : value) : except bool :=
  match hay with
  | VStr s => OK (Py.contains needle s)
  | VList l => OK (existsb (is_str needle) l)
  | VDict d => OK (dict_has needle d)
  | _ => Raise TypeError
  end.

(** [v.replace(old, new)]: only a str has the method. *)
Definition py_replace (old new : string) (v : value) : except value :=
  match v with
  | VStr s => OK (VStr (Py.replace old new s))
  | _ => Raise AttributeError
  end.

(** ** [clean_token] *)

Definition esc (c : ascii) : string := String Py.backslash (String c "").
Definition chr (c : ascii) : string := String c "".

(** Line 61: [re.sub] deletes every match of a pattern of two alternatives,
    a double quote under [^] and a double quote before [$].  The first
    alternative matches a quote at index 0.  The second matches a quote at which [$] holds just after it:
    at the end of the text, or before a newline that is the last character.
    Every match is one character long and is deleted. *)
Definition at_dollar (rest : string) : bool :=
  (rest =? "") || (rest =? chr Py.newline).

Fixpoint sub_edge_quotes (at_start : bool) (s : string) : string :=
  match s with
  | EmptyString => EmptyString
  | String c s' =>
      if Ascii.eqb c Py.quote && (at_start || at_dollar s')
      then sub_edge_quotes false s'
      else String c (sub_edge_quotes false s')
  end.

(** The three rewriting lines of [clean_token], on a str. *)
Definition clean_text (text : string) : string :=
  let text := Py.replace (esc "t") (chr Py.tab)
                (Py.replace (esc "n") (chr Py.newline) text) in
  let text := sub_edge_quotes true text in
  let text := Py.replace (esc Py.quote) (chr Py.quote) text in
  text.

(** [clean_token(text)] on any value the callers pass: a falsy value gives
    the empty string; a str is rewritten; another truthy value has no
    [replace]. *)
Definition clean_token (text : value) : except string :=
  if negb (truthy text) then OK ""
  else match text with
       | VStr s => OK (clean_text s)
       | _ => Raise AttributeError
       end.

(** ** Alias table *)

Definition MODEL_MAP : list (string * string) :=
  [ ("1", "kyvex");
    ("2", "claude-sonnet-4.5");
    ("3", "gpt-5");
    ("4", "gemini-2.5-pro");
    ("5", "grok-4");
    ("6", "gemini-imagen-4");
    ("kyvex", "kyvex");
    ("claude", "claude-sonnet-4.5");
    ("sonnet", "claude-sonnet-4.5");
    ("gpt5", "gpt-5");
    ("gpt-5", "gpt-5");
    ("gemini", "gemini-2.5-pro");
    ("grok", "grok-4");
    ("imagen", "gemini-imagen-4");
    ("default", "kyvex") ].

Fixpoint map_lookup (k : string) (m : list (string * string)) : option string :=
  match m with
  | [] => None
  | (k', v) :: m' => if k =? k' then Some v else map_lookup k m'
  end.

(** [MODEL_MAP.get(model_input, model_input)] *)
Definition map_get_default (k default : string) (m : list (string * string))
  : string :=
  match map_lookup k m with Some v => v | None => default end.

(** Line 194: the lookup that falls back to [model_input]. *)
Definition select_model (model_input : string) : string :=
  map_get_default model_input model_input MODEL_MAP.

(** Lines 193 and 194 on a str: [model_input = model.lower()], then the
    lookup. *)
Definition resolve_model (model : string) : string :=
  select_model (Py.lower model).

(** ** Results, upstream and request parameters *)

Inductive image_type : Type := Url | Base64.

Record image : Type := Image { img_type : image_type; img_data : value }.

Record meta : Type := Meta {
  meta_model : string;
  meta_web_search : bool;
  meta_generated_image : bool;
  meta_reasoning : bool
}.

(** The [message] of a failure: a value taken from the stream or the body,
    or [str(e)] of a caught exception. *)
Inductive message : Type :=
| Msg (v : value)
| StrOf (e : exn).

(** The two dicts the handlers return. *)
Inductive result : Type :=
| Success (m : meta) (response thought : string) (images : list image)
| Failure (error_code : option Z) (msg : message).

(** The JSON body posted upstream. *)
Record payload : Type := Payload {
  p_prompt : value;
  p_model : string;
  p_webSearch : bool;
  p_generateImage : bool;
  p_reasoning : bool;
  p_autoRoute : bool
}.

(** What [requests.post] gives: it raises, or returns a response with a
    status code, a body text and the lines [iter_lines] yields; the read may
    raise after the last of them ([read_fault]). *)
Record response : Type := Response {
  status_code : Z;
  text : string;
  lines : list string;
  read_fault : option exn
}.

Inductive upstream : Type :=
| PostRaises (e : exn)
| PostReturns (resp : response).

(** [str_to_bool(val)]: falsy gives False; otherwise [str(val).lower()] is
    looked up in ('true', '1', 'on', 'yes').  [str] of True is 'True', of an
    int its decimal text (only 1 gives '1'); the text of a float, a list or
    a dict is none of the four words. *)
Definition str_to_bool (val : value) : bool :=
  if negb (truthy val) then false
  else match val with
       | VStr s =>
           let l := Py.lower s in
           (l =? "true") || (l =? "1") || (l =? "on") || (l =? "yes")
       | VBool b => b
       | VInt n => (n =? 1)%Z
       | _ => false
       end.

(** [v.lower()]: only a str has the method. *)
Definition py_lower (v : value) : except string :=
  match v with
  | VStr s => OK (Py.lower s)
  | _ => Raise AttributeError
  end.

(** What the body of a [for] loop does with the loop: go on with the next
    line, [break], or [return] from the function. *)
Inductive flow (S : Type) : Type :=
| Next (st : S)
| Break (st : S)
| Return (r : result).
Arguments Next {S} st.
Arguments Break {S} st.
Arguments Return {S} r.

(** [for raw_line in resp.iter_lines(...)]: the body runs on each line in
    turn; the read fault, if any, is raised when the lines are used up.  The
    result is the state at the end of the loop, or the returned dict. *)
Fixpoint for_lines {S : Type} (body : S -> string -> except (flow S))
  (ls : list string) (fault : option exn) (st : S) : except (S + result) :=
  match ls with
  | [] => match fault with
          | Some e => Raise e
          | None => OK (inl st)
          end
  | raw_line :: rest =>
      f <- body st raw_line ;;
      match f with
      | Next st' => for_lines body rest fault st'
      | Break st' => OK (inl st')
      | Return r => OK (inr r)
      end
  end.

(** [try: ... except Exception as e: return {success: False, message: str(e)}] *)
Definition try_except (m : except result) : result :=
  match m with
  | OK r => r
  | Raise e => Failure None (StrOf e)
  end.

(** [a or b] *)
Definition py_or (a b : value) : value := if truthy a then a else b.

(** [images.append({type: t, data: v})] when [v] is truthy. *)
Definition append_if_truthy (t : image_type) (v : value) (images : list image)
  : list image :=
  if truthy v then (images ++ [Image t v])%list else images.

(** The character classes of the two patterns of the regex fallback: the
    base64 alphabet with the padding sign, and every character that is not
    white space, an apostrophe, a double quote or a closing parenthesis. *)
Definition is_b64_char (c : ascii) : bool :=
  let n := Py.code c in
  (((65 <=? n) && (n <=? 90)) || ((97 <=? n) && (n <=? 122))
   || ((48 <=? n) && (n <=? 57))
   || (n =? 43) || (n =? 47) || (n =? 61))%nat.

Definition is_url_char (c : ascii) : bool :=
  negb (Py.isspace c || (Py.code c =? 39)%nat || (Py.code c =? 34)%nat
        || (Py.code c =? 41)%nat).

(** Line 137: the search for [base64,] followed by a run of the alphabet;
    group 1 is the run. *)
Definition search_b64 (chunk : string) : option string :=
  Py.search_run "base64," is_b64_char chunk.

(** Line 141: the search for [https://] followed by a run of URL
    characters; group 1 is the whole match. *)
Definition search_url (chunk : string) : option string :=
  match Py.search_run "https://" is_url_char chunk with
  | Some run => Some ("https://" ++ run)
  | None => None
  end.

(** The test on the matched URL in line 142. *)
Definition url_is_image (url : string) : bool :=
  Py.contains "api/files" url
  || Py.endswith ".png" (Py.lower url)
  || Py.endswith ".jpg" (Py.lower url)
  || Py.endswith ".jpeg" (Py.lower url).

(** [re.search(pattern, chunk)] needs a str. *)
Definition as_str (v : value) : except string :=
  match v with
  | VStr s => OK s
  | _ => Raise TypeError
  end.

Inductive mode : Type := ModeResponse | ModeThink.

(** The locals of the loop of [process_kyvex_request]. *)
Record state : Type := State {
  full_response : string;
  full_thought : string;
  images : list image;
  current_mode : mode
}.

(** The locals of the loop of [process_imagen_specific]. *)
Record imagen_state : Type := ImagenState {
  i_full_response : string;
  i_images : list image
}.

Definition initial_state : state := State "" "" [] ModeResponse.
Definition initial_imagen_state : imagen_state := ImagenState "" [].

Definition unknown_upstream_error : value := VStr "Unknown upstream error".

Section Aggregation.

(** [json.loads] *)
Variable loads : string -> decoded.

(** *** The main path: lines 233 to 280 *)

(** Lines 251 to 255: the text of a structured event. *)
Definition event_content (data : dict) : value :=
  match dict_get "token" data with
  | VNone =>
      match dict_get "content" data with
      | VStr s => VStr s
      | _ => VStr ""
      end
  | token => token
  end.

(** Lines 264 to 269: the two marker tests, the opening one first.  The
    result is the mode and the content after them. *)
Definition track_mode (current : mode) (content : value)
  : except (mode * value) :=
  has_open <- py_in "<think>" content ;;
  mc <- (if has_open : bool
         then c <- py_replace "<think>" "" content ;; OK (ModeThink, c)
         else OK (current, content)) ;;
  has_close <- py_in "</think>" (snd mc) ;;
  if has_close : bool
  then c <- py_replace "</think>" "" (snd mc) ;; OK (ModeResponse, c)
  else OK mc.

(** Lines 273 to 276. *)
Definition append_token (st : state) (imgs : list image) (m : mode)
  (token : string) : state :=
  match m with
  | ModeThink =>
      State (full_response st) (full_thought st ++ token) imgs m
  | ModeResponse =>
      State (full_response st ++ token) (full_thought st) imgs m
  end.

(** Lines 234 to 237, shared in shape by both loops: [Some line] is the line
    to decode, [None] stands for the sentinel. *)
Definition unframe (line : string) : option string :=
  let line :=
    if Py.startswith "data:" line
    then Py.strip (Py.drop (String.length "data:") line) else line in
  if line =? "[DONE]" then None else Some line.

(** Line 248: the message of the failure an error event gives. *)
Definition error_message (data : dict) : value :=
  py_or (dict_get "message" data) unknown_upstream_error.

(** Lines 245 to 280: what the loop does with a decoded line. *)
Definition kyvex_event (st : state) (data : value) : except (flow state) :=
  match data with
  | VDict data =>
      if is_str "error" (dict_get "status" data)
      then OK (Return (Failure None (Msg (error_message data))))
      else
        let content := event_content data in
        let imgs :=
          append_if_truthy Url (dict_get "imageUrl" data)
            (append_if_truthy Base64 (dict_get "imageBase64" data)
               (images st)) in
        mc <- track_mode (current_mode st) content ;;
        token <- clean_token (snd mc) ;;
        OK (Next (append_token st imgs (fst mc) token))
  | VStr s =>
      token <- clean_token (VStr s) ;;
      OK (Next (State (full_response st ++ token) (full_thought st)
                      (images st) (current_mode st)))
  | _ => OK (Next st)
  end.

(** Lines 234 to 243, then the event.  Line 242 catches JSONDecodeError
    only: another exception of the decoder leaves the loop. *)
Definition kyvex_body (st : state) (raw_line : string) : except (flow state) :=
  let line := Py.strip raw_line in
  if (line =? "") || Py.startswith ":" line then OK (Next st)
  else
    match unframe line with
    | None => OK (Break st)
    | Some line =>
        match loads line with
        | DecodeError => OK (Next st)
        | DecodeRaises e => Raise e
        | Decoded data => kyvex_event st data
        end
    end.

(** *** The image-generation path: lines 112 to 145 *)

(** Lines 119 to 134: the chunk and the image list after the inner [try],
    whose bare [except] leaves both as they were on every exception of the
    decoder. *)
Definition imagen_decode (content : string) (imgs : list image)
  : value * list image :=
  if Py.startswith "{" content || Py.startswith "[" content then
    match loads content with
    | Decoded (VDict data) =>
        let chunk :=
          if dict_has "token" data then dict_get "token" data
          else if dict_has "content" data then dict_get "content" data
          else VStr content in
        (chunk,
         append_if_truthy Base64 (dict_get "imageBase64" data)
           (append_if_truthy Url (dict_get "imageUrl" data) imgs))
    | _ => (VStr content, imgs)
    end
  else if Py.startswith (chr Py.quote) content
          && Py.endswith (chr Py.quote) content then
    match loads content with
    | Decoded v => (v, imgs)
    | _ => (VStr content, imgs)
    end
  else (VStr content, imgs).

(** Lines 136 to 143: the regex fallback on the chunk. *)
Definition imagen_scan (chunk : string) (imgs : list image) : list image :=
  let imgs :=
    match search_b64 chunk with
    | Some run => (imgs ++ [Image Base64 (VStr run)])%list
    | None => imgs
    end in
  match search_url chunk with
  | Some url =>
      if url_is_image url then (imgs ++ [Image Url (VStr url)])%list else imgs
  | None => imgs
  end.

Definition imagen_body (st : imagen_state) (raw_line : string)
  : except (flow imagen_state) :=
  if raw_line =? "" then OK (Next st)
  else
    match unframe (Py.strip raw_line) with
    | None => OK (Break st)
    | Some content =>
        let (chunk, imgs) := imagen_decode content (i_images st) in
        s <- as_str chunk ;;
        let imgs := imagen_scan s imgs in
        token <- clean_token chunk ;;
        OK (Next (ImagenState (i_full_response st ++ token) imgs))
    end.

(** The loops on a response whose status is 200. *)
Definition kyvex_stream (ls : list string) (fault : option exn) (st : state)
  : except (state + result) :=
  for_lines kyvex_body ls fault st.

Definition imagen_stream (ls : list string) (fault : option exn)
  (st : imagen_state) : except (imagen_state + result) :=
  for_lines imagen_body ls fault st.

Definition imagen_meta : meta := Meta "gemini-imagen-4" false true false.

Definition imagen_payload (params : dict) : payload :=
  Payload (dict_get_default "prompt" (VStr "") params)
          "gemini-imagen-4" false true false false.

Definition process_imagen_specific (params : dict) (post : payload -> upstream)
  : result :=
  try_except
    match post (imagen_payload params) with
    | PostRaises e => Raise e
    | PostReturns resp =>
        if negb (status_code resp =? 200)%Z
        then OK (Failure (Some (status_code resp))
                         (Msg (VStr (Py.take 300 (text resp)))))
        else
          r <- imagen_stream (lines resp) (read_fault resp)
                 initial_imagen_state ;;
          match r with
          | inr res => OK res
          | inl st =>
              OK (Success imagen_meta (Py.strip (i_full_response st)) ""
                          (i_images st))
          end
    end.

Definition kyvex_payload (params : dict) (selected_model : string) : payload :=
  let generate_image :=
    str_to_bool (dict_get_default "image" (VBool false) params) in
  let generate_image :=
    if selected_model =? "gemini-imagen-4" then true else generate_image in
  Payload (dict_get_default "prompt" (VStr "") params)
          selected_model
          (str_to_bool (dict_get_default "web" (VBool false) params))
          generate_image
          (str_to_bool (dict_get_default "reasoning" (VBool false) params))
          (str_to_bool (dict_get_default "auto" (VBool false) params)).

Definition kyvex_meta (p : payload) : meta :=
  Meta (p_model p) (p_webSearch p) (p_generateImage p) (p_reasoning p).

(** The part of [process_kyvex_request] under its [try]. *)
Definition kyvex_aggregate (p : payload) (post : payload -> upstream)
  : result :=
  try_except
    match post p with
    | PostRaises e => Raise e
    | PostReturns resp =>
        if negb (status_code resp =? 200)%Z
        then OK (Failure (Some (status_code resp))
                         (Msg (VStr (Py.take 300 (text resp)))))
        else
          r <- kyvex_stream (lines resp) (read_fault resp) initial_state ;;
          match r with
          | inr res => OK res
          | inl st =>
              OK (Success (kyvex_meta p) (Py.strip (full_response st))
                          (Py.strip (full_thought st)) (images st))
          end
    end.

(** [process_kyvex_request(params)]: [Raise] is an exception that leaves the
    function.  Line 193 stands before the [try]. *)
Definition process_kyvex_request (params : dict) (post : payload -> upstream)
  : except result :=
  model_input <- py_lower (dict_get_default "model" (VStr "kyvex") params) ;;
  let selected_model := select_model model_input in
  if selected_model =? "gemini-imagen-4"
  then OK (process_imagen_specific params post)
  else OK (kyvex_aggregate (kyvex_payload params selected_model) post).

End Aggregation.

(** ** A JSON decoder for the concrete runs

    [json_loads] follows the grammar of Python's decoder: white space is
    SPACE, TAB, LF and CR; a string may not hold a raw control character; a
    repeated key keeps its first place and takes the last value.  Its range
    is the JSON whose numbers are integer literals and whose [\u] escapes are
    below 256: a float literal (and NaN, Infinity) or a larger escape makes it
    answer [DecodeError], and it raises nothing (Python raises on an integer
    literal of more than 4300 digits and on very deep nesting), so no run
    below uses such a line. *)

Module Json.

Definition is_ws (c : ascii) : bool :=
  let n := Py.code c in
  ((n =? 32) || (n =? 9) || (n =? 10) || (n =? 13))%nat.

Fixpoint skip_ws (s : string) : string :=
  match s with
  | EmptyString => EmptyString
  | String c s' => if is_ws c then skip_ws s' else s
  end.

Definition is_digit (c : ascii) : bool :=
  ((48 <=? Py.code c) && (Py.code c <=? 57))%nat.

Definition hex_digit (c : ascii) : option nat :=
  let n := Py.code c in
  if ((48 <=? n) && (n <=? 57))%nat then Some (n - 48)
  else if ((97 <=? n) && (n <=? 102))%nat then Some (n - 87)
  else if ((65 <=? n) && (n <=? 70))%nat then Some (n - 55)
  else None.

Definition hex4 (a b c d : ascii) : option nat :=
  match hex_digit a, hex_digit b, hex_digit c, hex_digit d with
  | Some x, Some y, Some z, Some w => Some (((x * 16 + y) * 16 + z) * 16 + w)
  | _, _, _, _ => None
  end.

(** The character a one-letter escape stands for. *)
Definition unescape (c : ascii) : option ascii :=
  let n := Py.code c in
  if (n =? 34)%nat then Some Py.quote
  else if (n =? 92)%nat then Some Py.backslash
  else if (n =? 47)%nat then Some "/"%char
  else if (n =? 98)%nat then Some (ascii_of_nat 8)
  else if (n =? 102)%nat then Some (ascii_of_nat 12)
  else if (n =? 110)%nat then Some Py.newline
  else if (n =? 114)%nat then Some (ascii_of_nat 13)
  else if (n =? 116)%nat then Some Py.tab
  else None.

Definition cons_to (c : ascii) (r : option (string * string))
  : option (string * string) :=
  match r with
  | Some (t, rest) => Some (String c t, rest)
  | None => None
  end.

(** The body of a string, after its opening quote: the decoded text and what
    follows the closing quote. *)
Fixpoint scan_string (s : string) : option (string * string) :=
  match s with
  | EmptyString => None
  | String c s' =>
      if Ascii.eqb c Py.quote then Some (EmptyString, s')
      else if Ascii.eqb c Py.backslash then
        match s' with
        | String e s'' =>
            if Ascii.eqb e "u" then
              match s'' with
              | String h1 (String h2 (String h3 (String h4 r))) =>
                  match hex4 h1 h2 h3 h4 with
                  | Some n =>
                      if (n <? 256)%nat
                      then cons_to (ascii_of_nat n) (scan_string r)
                      else None
                  | None => None
                  end
              | _ => None
              end
            else
              match unescape e with
              | Some ch => cons_to ch (scan_string s'')
              | None => None
              end
        | EmptyString => None
        end
      else if (Py.code c <? 32)%nat then None
      else cons_to c (scan_string s')
  end.

(** The digits at the start of [s], as a number, and the rest. *)
Fixpoint scan_digits (acc : Z) (s : string) : Z * string :=
  match s with
  | String c s' =>
      if is_digit c
      then scan_digits (acc * 10 + Z.of_nat (Py.code c - 48)) s'
      else (acc, s)
  | EmptyString => (acc, s)
  end.

(** An unsigned integer literal: [0], or a digit from 1 to 9 and digits. *)
Definition scan_natural (s : string) : option (Z * string) :=
  match s with
  | String c s' =>
      if Ascii.eqb c "0" then Some (0%Z, s')
      else if is_digit c then Some (scan_digits 0 s)
      else None
  | EmptyString => None
  end.

Definition starts_float_part (s : string) : bool :=
  match s with
  | String c _ => Ascii.eqb c "." || Ascii.eqb c "e" || Ascii.eqb c "E"
  | EmptyString => false
  end.

Definition scan_number (s : string) : option (value * string) :=
  let r :=
    match s with
    | String c s' =>
        if Ascii.eqb c "-"
        then match scan_natural s' with
             | Some (n, rest) => Some ((- n)%Z, rest)
             | None => None
             end
        else scan_natural s
    | EmptyString => None
    end in
  match r with
  | Some (n, rest) => if starts_float_part rest then None else Some (VInt n, rest)
  | None => None
  end.

Fixpoint scan_once (fuel : nat) (s : string) : option (value * string) :=
  match fuel with
  | O => None
  | S fuel =>
      match s with
      | EmptyString => None
      | String c s' =>
          if Ascii.eqb c Py.quote then
            match scan_string s' with
            | Some (t, rest) => Some (VStr t, rest)
            | None => None
            end
          else if Ascii.eqb c "{" then
            match skip_ws s' with
            | String c1 r1 =>
                if Ascii.eqb c1 "}" then Some (VDict [], r1)
                else scan_members fuel [] (String c1 r1)
            | EmptyString => None
            end
          else if Ascii.eqb c "[" then
            match skip_ws s' with
            | String c1 r1 =>
                if Ascii.eqb c1 "]" then Some (VList [], r1)
                else scan_elements fuel [] (String c1 r1)
            | EmptyString => None
            end
          else if String.prefix "null" s then Some (VNone, Py.drop 4 s)
          else if String.prefix "true" s then Some (VBool true, Py.drop 4 s)
          else if String.prefix "false" s then Some (VBool false, Py.drop 5 s)
          else scan_number s
      end
  end

(** The members of an object from the opening quote of a key on. *)
with scan_members (fuel : nat) (acc : dict) (s : string)
  : option (value * string) :=
  match fuel with
  | O => None
  | S fuel =>
      match s with
      | String c s' =>
          if Ascii.eqb c Py.quote then
            match scan_string s' with
            | Some (key, rest) =>
                match skip_ws rest with
                | String colon rest1 =>
                    if Ascii.eqb colon ":" then
                      match scan_once fuel (skip_ws rest1) with
                      | Some (v, rest2) =>
                          let acc := dict_set key v acc in
                          match skip_ws rest2 with
                          | String d rest3 =>
                              if Ascii.eqb d "}" then Some (VDict acc, rest3)
                              else if Ascii.eqb d ","
                              then scan_members fuel acc (skip_ws rest3)
                              else None
                          | EmptyString => None
                          end
                      | None => None
                      end
                    else None
                | EmptyString => None
                end
            | None => None
            end
          else None
      | EmptyString => None
      end
  end

(** The elements of an array from the first character of a value on. *)
with scan_elements (fuel : nat) (acc : list value) (s : string)
  : option (value * string) :=
  match fuel with
  | O => None
  | S fuel =>
      match scan_once fuel s with
      | Some (v, rest) =>
          let acc := (acc ++ [v])%list in
          match skip_ws rest with
          | String d rest1 =>
              if Ascii.eqb d "]" then Some (VList acc, rest1)
              else if Ascii.eqb d ","
              then scan_elements fuel acc (skip_ws rest1)
              else None
          | EmptyString => None
          end
      | None => None
      end
  end.

End Json.

(** [json.loads(s)] on the range described above. *)
Definition json_loads (s : string) : decoded :=
  match Json.scan_once (2 * String.length s + 2) (Json.skip_ws s) with
  | Some (v, rest) =>
      match Json.skip_ws rest with
      | EmptyString => Decoded v
      | _ => DecodeError
      end
  | None => DecodeError
  end.

(** Writes the double quotes of a JSON text as apostrophes, for the
    statements below: [q] puts a double quote for every apostrophe. *)
Definition q (s : string) : string := Py.replace "'" (chr Py.quote) s.

(** ** Definitions of the statements *)

(** *** The normalizer in the words of its description

    [spec_normalize] strips the quotes only as a pair; the two functions
    after it strip each end on its own. *)

Definition unescape_controls (s : string) : string :=
  Py.replace (esc "t") (chr Py.tab) (Py.replace (esc "n") (chr Py.newline) s).

Definition unescape_quotes (s : string) : string :=
  Py.replace (esc Py.quote) (chr Py.quote) s.

Definition strip_quote_pair (s : string) : string :=
  if Py.startswith (chr Py.quote) s && Py.endswith (chr Py.quote) s
     && (2 <=? String.length s)%nat
  then Py.take (String.length s - 2) (Py.drop 1 s)
  else s.

Definition spec_normalize (s : string) : string :=
  unescape_quotes (strip_quote_pair (unescape_controls s)).

Definition strip_leading_quote (s : string) : string :=
  if Py.startswith (chr Py.quote) s then Py.drop 1 s else s.

Definition strip_trailing_quote (s : string) : string :=
  if Py.endswith (chr Py.quote) s
  then Py.take (String.length s - 1) s
  else if Py.endswith (String Py.quote (chr Py.newline)) s
  then Py.take (String.length s - 2) s ++ chr Py.newline
  else s.

(** *** Lines and events *)

(** The main loop decodes [raw_line] to [v]: the line is not skipped, it is
    not the sentinel, and the decoder accepts it. *)
Definition decodes_to (loads : string -> decoded) (raw_line : string)
  (v : value) : Prop :=
  Py.strip raw_line <> "" /\
  Py.startswith ":" (Py.strip raw_line) = false /\
  exists line,
    unframe (Py.strip raw_line) = Some line /\ loads line = Decoded v.

(** The main loop reaches the decoder with [raw_line] and the decoder
    rejects it with JSONDecodeError. *)
Definition undecodable (loads : string -> decoded) (raw_line : string)
  : Prop :=
  Py.strip raw_line <> "" /\
  Py.startswith ":" (Py.strip raw_line) = false /\
  exists line,
    unframe (Py.strip raw_line) = Some line /\ loads line = DecodeError.

(** The main loop reaches the decoder with [raw_line] and the decoder raises
    [e], an exception that is no JSONDecodeError. *)
Definition decode_raises (loads : string -> decoded) (raw_line : string)
  (e : exn) : Prop :=
  Py.strip raw_line <> "" /\
  Py.startswith ":" (Py.strip raw_line) = false /\
  exists line,
    unframe (Py.strip raw_line) = Some line /\ loads line = DecodeRaises e.

Definition is_object_or_string (v : value) : bool :=
  match v with
  | VDict _ | VStr _ => true
  | _ => false
  end.

(** The structured event [data] carries the upstream error signal. *)
Definition is_error_event (data : dict) : bool :=
  is_str "error" (dict_get "status" data).

(** Every line of [ls] lets the loop go on: no sentinel, no return, no
    exception.  [st'] is the state after the last of them. *)
Inductive reads_through {S : Type} (body : S -> string -> except (flow S))
  : list string -> S -> S -> Prop :=
| reads_nil (st : S) : reads_through body [] st st
| reads_cons (raw_line : string) (rest : list string) (st st1 st2 : S) :
    body st raw_line = OK (Next st1) ->
    reads_through body rest st1 st2 ->
    reads_through body (raw_line :: rest) st st2.

(** *** The two pattern scans *)

Fixpoint all_chars (cls : ascii -> bool) (s : string) : bool :=
  match s with
  | EmptyString => true
  | String c s' => cls c && all_chars cls s'
  end.

Definition head_in (cls : ascii -> bool) (s : string) : bool :=
  match s with
  | EmptyString => false
  | String c _ => cls c
  end.

(** After the prefix [pre] of [s] stands [lit], followed by a character of
    the class. *)
Definition occurs_at (lit : string) (cls : ascii -> bool) (pre s : string)
  : Prop :=
  exists c t, s = pre ++ lit ++ String c t /\ cls c = true.

(** [run] is what the leftmost occurrence captures: the longest run of the
    class after the first [lit] that is followed by one. *)
Definition leftmost_run (lit : string) (cls : ascii -> bool) (s run : string)
  : Prop :=
  exists pre post,
    s = pre ++ lit ++ run ++ post /\
    run <> "" /\ all_chars cls run = true /\ head_in cls post = false /\
    forall pre', occurs_at lit cls pre' s ->
                 String.length pre <= String.length pre'.

(** The refs the two scans add for the text [s]. *)
Definition b64_refs (s : string) : list image :=
  match search_b64 s with
  | Some run => [Image Base64 (VStr run)]
  | None => []
  end.

Definition url_refs (s : string) : list image :=
  match search_url s with
  | Some url => if url_is_image url then [Image Url (VStr url)] else []
  | None => []
  end.

(** ** The chat route *)

(** [result.get("success")] *)
Definition success (r : result) : bool :=
  match r with
  | Success _ _ _ _ => true
  | Failure _ _ => false
  end.

Definition missing_prompt : result :=
  Failure None (Msg (VStr "Missing 'prompt' parameter.")).

(** Lines 323 to 334 of [chat_endpoint], from the params dict on (the choice
    of the dict among the query string, the form and the JSON body is Flask's
    and is left out): the dict that is returned and the status code. *)
Definition chat_endpoint (loads : string -> decoded) (params : dict)
  (post : payload -> upstream) : except (result * Z) :=
  let prompt := dict_get "prompt" params in
  if negb (truthy prompt) then OK (missing_prompt, 400%Z)
  else
    result <- process_kyvex_request loads params post ;;
    OK (result, if success result then 200%Z else 500%Z).

(** ** Definitions of the further statements *)

(** The main loop reads [raw_line] as the sentinel. *)
Definition sentinel_line (raw_line : string) : Prop :=
  Py.strip raw_line <> "" /\
  Py.startswith ":" (Py.strip raw_line) = false /\
  unframe (Py.strip raw_line) = None.

(** The character [c] is not in [s]. *)
Definition no_char (c : ascii) (s : string) : bool :=
  all_chars (fun x => negb (Ascii.eqb x c)) s.

(** The lines [ls] decode to structured events that are no error signal and
    whose texts [cs] are strs without a marker. *)
Inductive plain_events (loads : string -> decoded)
  : list string -> list string -> Prop :=
| plain_nil : plain_events loads [] []
| plain_cons (raw_line : string) (data : dict) (c : string)
    (ls cs : list string) :
    decodes_to loads raw_line (VDict data) ->
    is_error_event data = false ->
    event_content data = VStr c ->
    Py.contains "<think>" c = false ->
    Py.contains "</think>" c = false ->
    plain_events loads ls cs ->
    plain_events loads (raw_line :: ls) (c :: cs).

(** The normalized texts, one after the other. *)
Definition concat_clean (cs : list string) : string :=
  fold_right (fun c acc => clean_text c ++ acc) "" cs.

(** The exception a token that is no str stands for on the main path: a
    number or a boolean is not iterable, a non-empty list or dict has no
    [replace]; None, a str and the empty containers raise nothing. *)
Definition token_fault (v : value) : option exn :=
  match v with
  | VBool _ | VInt _ | VFloat _ => Some TypeError
  | VList (_ :: _) | VDict (_ :: _) => Some AttributeError
  | _ => None
  end.

(** Line 339 of [list_models]: [list(set(MODEL_MAP.values()))].  The order
    of a list made from a set is not fixed, so the list is any list without
    repetition that holds the values of the table and nothing else. *)
Definition unique_models (l : list string) : Prop :=
  NoDup l /\ forall v, In v l <-> In v (map snd MODEL_MAP).

(** The three spellings that select the image handler. *)
Definition selects_imagen (model_input : string) : bool :=
  (model_input =? "6") || (model_input =? "imagen")
  || (model_input =? "gemini-imagen-4").

(** Closes a goal [decodes_to] or [undecodable] on a concrete line. *)
Ltac line_by_evaluation :=
  split; [vm_compute; discriminate |
  split; [vm_compute; reflexivity |
  eexists; split; reflexivity]].

(** * Properties *)

(** ** Evaluations of the embedding *)

Example clean_text_newline :
  clean_text "a\nb" = "a" ++ chr Py.newline ++ "b".
Proof. reflexivity. Qed.

Example clean_text_wrapped : clean_text (q "'hi'") = "hi".
Proof. reflexivity. Qed.

Example clean_text_quote_before_final_newline :
  clean_text (q "hi'\n") = "hi" ++ chr Py.newline.
Proof. reflexivity. Qed.

Example clean_text_escaped_quotes :
  clean_text (q "say \'hi\' now") = q "say 'hi' now".
Proof. reflexivity. Qed.

Example replace_does_not_overlap : Py.replace "aa" "b" "aaaaa" = "bba".
Proof. reflexivity. Qed.

Example strip_both_ends :
  Py.strip (chr Py.tab ++ "  data: x " ++ chr Py.newline) = "data: x".
Proof. reflexivity. Qed.

Example unframe_sentinel : unframe (Py.strip " data: [DONE] ") = None.
Proof. reflexivity. Qed.

Example json_loads_object :
  json_loads (q " {'token' : 'a\u0041\n', 'n' : [1, -20, true, null], 'token' : 'z'} ") =
  Decoded (VDict [("token", VStr "z");
                  ("n", VList [VInt 1; VInt (-20); VBool true; VNone])]).
Proof. reflexivity. Qed.

Example json_loads_rejects :
  json_loads "hello" = DecodeError /\ json_loads "[1,]" = DecodeError /\
  json_loads "[01]" = DecodeError /\
  json_loads (q "{'a':1,}") = DecodeError /\
  json_loads (q "{'a':1} x") = DecodeError /\ json_loads "" = DecodeError.
Proof. repeat split; reflexivity. Qed.

Example search_b64_payload :
  search_b64 "data:image/png;base64,;base64,QUJD+/=.rest" = Some "QUJD+/=".
Proof. reflexivity. Qed.

Example search_url_stops_at_paren :
  search_url "see (https://x/a.PNG) and https://y/api/files/2" =
  Some "https://x/a.PNG" /\
  url_is_image "https://x/a.PNG" = true /\
  url_is_image "https://x/page.html" = false.
Proof. repeat split; reflexivity. Qed.

Example str_to_bool_values :
  str_to_bool (VStr "YES") = true /\ str_to_bool (VBool true) = true /\
  str_to_bool (VInt 1) = true /\ str_to_bool (VStr "no") = false /\
  str_to_bool (VInt 2) = false /\ str_to_bool VNone = false.
Proof. repeat split; reflexivity. Qed.

(** A token that is no str is a fault of the main loop, and the request
    fails with its description. *)
Example numeric_token_is_a_failure :
  process_kyvex_request json_loads [("prompt", VStr "hi")]
    (fun _ => PostReturns (Response 200 ""
       [q "{'token':'a'}"; q "{'token':5}"] None)) =
  OK (Failure None (StrOf TypeError)).
Proof. reflexivity. Qed.

Example transport_failures :
  process_kyvex_request json_loads [("prompt", VStr "hi")]
    (fun _ => PostRaises (TransportError "timed out")) =
  OK (Failure None (StrOf (TransportError "timed out"))) /\
  process_kyvex_request json_loads [("prompt", VStr "hi")]
    (fun _ => PostReturns (Response 503 "busy" [] None)) =
  OK (Failure (Some 503%Z) (Msg (VStr "busy"))) /\
  process_kyvex_request json_loads [("prompt", VStr "hi")]
    (fun _ => PostReturns (Response 200 "" [q "{'token':'a'}"]
                (Some (TransportError "reset")))) =
  OK (Failure None (StrOf (TransportError "reset"))).
Proof. repeat split; reflexivity. Qed.

(** ** Strings *)

Section StringFacts.

Lemma append_nil_r (s : string) : s ++ "" = s.
Proof. induction s as [|c s IH]; simpl; [reflexivity | now rewrite IH]. Qed.

Lemma append_assoc (a b c : string) : (a ++ b) ++ c = a ++ (b ++ c).
Proof. induction a as [|x a IH]; simpl; [reflexivity | now rewrite IH]. Qed.

Lemma length_append (a b : string) :
  String.length (a ++ b) = String.length a + String.length b.
Proof. induction a as [|x a IH]; simpl; [reflexivity | now rewrite IH]. Qed.

Lemma prefix_empty (s : string) : String.prefix "" s = true.
Proof. now destruct s. Qed.

Lemma prefix_split (p s : string) :
  String.prefix p s = true -> exists t, s = p ++ t.
Proof.
  revert s; induction p as [|a p IH]; intros s H.
  - now exists s.
  - destruct s as [|b s]; simpl in H; [discriminate|].
    destruct (ascii_dec a b) as [->|]; [|discriminate].
    destruct (IH _ H) as [t ->]. now exists t.
Qed.

Lemma prefix_append (p t : string) : String.prefix p (p ++ t) = true.
Proof.
  induction p as [|a p IH]; simpl.
  - now destruct t.
  - destruct (ascii_dec a a); [assumption | congruence].
Qed.

Lemma drop_append (p t : string) : Py.drop (String.length p) (p ++ t) = t.
Proof. induction p as [|a p IH]; simpl; [now destruct t | assumption]. Qed.

Lemma contains_prefix (p s : string) :
  String.prefix p s = true -> Py.contains p s = true.
Proof. intros H. destruct s; cbn [Py.contains]; now rewrite H. Qed.

Lemma contains_append (p a b : string) : Py.contains p (a ++ p ++ b) = true.
Proof.
  induction a as [|x a IH].
  - change (Py.contains p (p ++ b) = true).
    apply contains_prefix, prefix_append.
  - cbn [append Py.contains]. rewrite IH. apply orb_true_r.
Qed.

Lemma contains_split (p s : string) :
  Py.contains p s = true -> exists a b, s = a ++ p ++ b.
Proof.
  induction s as [|c s IH]; cbn [Py.contains]; intros H.
  - rewrite orb_false_r in H. destruct p; [|discriminate]. now exists "", "".
  - apply orb_true_iff in H as [H|H].
    + destruct (prefix_split _ _ H) as [t E]. exists "", t. exact E.
    + destruct (IH H) as (a & b & ->). now exists (String c a), b.
Qed.

(** Skipping [k] characters is dropping them. *)
Lemma replace_from_skip (old new : string) (k : nat) (s : string) :
  Py.replace_from old new k s = Py.replace_from old new 0 (Py.drop k s).
Proof.
  revert k; induction s as [|c s IH]; intros [|k]; simpl; try reflexivity.
  apply IH.
Qed.

(** A text that does not hold [old] is left as it is. *)
Lemma replace_from_absent (old new s : string) :
  Py.contains old s = false -> Py.replace_from old new 0 s = s.
Proof.
  induction s as [|c s IH]; intros H; [reflexivity|].
  cbn [Py.contains] in H. apply orb_false_iff in H as [Hp Hc].
  cbn [Py.replace_from]. rewrite Hp, (IH Hc). reflexivity.
Qed.

Lemma endswith_length (p s : string) :
  Py.endswith p s = true -> String.length p <= String.length s.
Proof.
  induction s as [|c s IH]; cbn [Py.endswith]; intros H.
  - rewrite orb_false_r in H. apply String.eqb_eq in H. now subst.
  - apply orb_true_iff in H as [H|H].
    + apply String.eqb_eq in H. now subst.
    + specialize (IH H). simpl. lia.
Qed.

Lemma take_cons (n : nat) (c : ascii) (s : string) :
  Py.take (S n) (String c s) = String c (Py.take n s).
Proof. reflexivity. Qed.

End StringFacts.

(** The markers: a closing marker is still there once every opening marker
    has been deleted, since the two cannot overlap. *)
Lemma closing_marker_survives (k : nat) (s : string) :
  Py.contains "</think>" (Py.drop k s) = true ->
  Py.contains "</think>" (Py.replace_from "<think>" "" k s) = true.
Proof.
  revert k; induction s as [|c s IH]; intros k H.
  - destruct k; discriminate H.
  - destruct k as [|k]; [|exact (IH k H)].
    cbn [Py.drop] in H. cbn [Py.replace_from].
    destruct (String.prefix "<think>" (String c s)) eqn:Hopen.
    + destruct (prefix_split _ _ Hopen) as [t E].
      simpl in E. injection E as -> ->.
      apply (IH 6). exact H.
    + cbn [Py.contains] in H. apply orb_true_iff in H as [H|H].
      * destruct (prefix_split _ _ H) as [t E].
        simpl in E. injection E as -> ->.
        simpl. now rewrite prefix_empty.
      * cbn [Py.contains]. rewrite (IH 0 H). apply orb_true_r.
Qed.

(** ** The deletion of the edge quotes *)

Lemma endswith_cons_other (p : string) (c : ascii) (s : string) :
  (p =? String c s) = false ->
  Py.endswith p (String c s) = Py.endswith p s.
Proof. intros H. cbn [Py.endswith]. now rewrite H. Qed.

Lemma strip_trailing_quote_cons (c : ascii) (s : string) :
  strip_trailing_quote (String c s) =
  if Ascii.eqb c Py.quote && at_dollar s then s
  else String c (strip_trailing_quote s).
Proof.
  destruct (Ascii.eqb c Py.quote && at_dollar s) eqn:E.
  - apply andb_true_iff in E as [Hc Hs]. apply Ascii.eqb_eq in Hc. subst c.
    unfold at_dollar in Hs. apply orb_true_iff in Hs as [Hs|Hs];
      apply String.eqb_eq in Hs; subst s; reflexivity.
  - assert (H1 : (chr Py.quote =? String c s) = false).
    { apply String.eqb_neq. intros Heq. injection Heq as <- <-.
      discriminate E. }
    assert (H2 : (String Py.quote (chr Py.newline) =? String c s) = false).
    { apply String.eqb_neq. intros Heq. injection Heq as <- <-.
      discriminate E. }
    unfold strip_trailing_quote.
    rewrite (endswith_cons_other _ _ _ H1), (endswith_cons_other _ _ _ H2).
    destruct (Py.endswith (chr Py.quote) s) eqn:E1.
    + apply endswith_length in E1. destruct s as [|d s]; [simpl in E1; lia|].
      cbn [String.length]. rewrite !Nat.sub_succ, !Nat.sub_0_r.
      apply take_cons.
    + destruct (Py.endswith (String Py.quote (chr Py.newline)) s) eqn:E2;
        [|reflexivity].
      apply endswith_length in E2.
      destruct s as [|d [|e s]]; [simpl in E2; lia | simpl in E2; lia |].
      cbn [String.length]. rewrite !Nat.sub_succ, !Nat.sub_0_r.
      rewrite take_cons. reflexivity.
Qed.

Lemma sub_edge_quotes_inner (s : string) :
  sub_edge_quotes false s = strip_trailing_quote s.
Proof.
  induction s as [|c s IH]; [reflexivity|].
  rewrite strip_trailing_quote_cons. cbn [sub_edge_quotes orb].
  destruct (Ascii.eqb c Py.quote && at_dollar s) eqn:E.
  - apply andb_true_iff in E as [_ Hs].
    unfold at_dollar in Hs. apply orb_true_iff in Hs as [Hs|Hs];
      apply String.eqb_eq in Hs; subst s; reflexivity.
  - now rewrite IH.
Qed.

Lemma startswith_chr (a c : ascii) (s : string) :
  Py.startswith (chr a) (String c s) = Ascii.eqb c a.
Proof.
  unfold Py.startswith, chr. cbn [String.prefix].
  destruct (ascii_dec a c) as [->|Hne].
  - now rewrite prefix_empty, Ascii.eqb_refl.
  - symmetry. apply Ascii.eqb_neq. congruence.
Qed.

Lemma sub_edge_quotes_outer (s : string) :
  sub_edge_quotes true s = strip_trailing_quote (strip_leading_quote s).
Proof.
  destruct s as [|c s]; [reflexivity|].
  unfold strip_leading_quote. rewrite startswith_chr.
  cbn [sub_edge_quotes orb]. rewrite andb_true_r.
  destruct (Ascii.eqb c Py.quote) eqn:E.
  - cbn [Py.drop]. apply sub_edge_quotes_inner.
  - rewrite <- sub_edge_quotes_inner. cbn [sub_edge_quotes].
    now rewrite E.
Qed.

(** ** The two pattern scans *)

Section Scan.

Variable lit : string.
Variable cls : ascii -> bool.

Lemma span_split (s : string) :
  exists post,
    s = Py.span cls s ++ post /\
    all_chars cls (Py.span cls s) = true /\ head_in cls post = false.
Proof.
  induction s as [|c s IH]; [now exists ""|].
  cbn [Py.span]. destruct (cls c) eqn:Hc.
  - destruct IH as (post & E & Hall & Hhead). exists post.
    cbn [append all_chars]. rewrite Hc, Hall, <- E. auto.
  - exists (String c s). cbn [head_in]. auto.
Qed.

Lemma span_append (run post : string) :
  all_chars cls run = true -> head_in cls post = false ->
  Py.span cls (run ++ post) = run.
Proof.
  induction run as [|c run IH]; cbn [all_chars append]; intros Hall Hhead.
  - destruct post as [|d post]; [reflexivity|].
    cbn [Py.span]. cbn [head_in] in Hhead. now rewrite Hhead.
  - apply andb_true_iff in Hall as [Hc Hall].
    cbn [Py.span]. now rewrite Hc, IH.
Qed.

Lemma match_here_occurs (s run : string) :
  Py.match_here lit cls s = Some run ->
  exists post,
    s = lit ++ run ++ post /\
    run <> "" /\ all_chars cls run = true /\ head_in cls post = false.
Proof.
  unfold Py.match_here. destruct (String.prefix lit s) eqn:Hp; [|discriminate].
  destruct (prefix_split _ _ Hp) as [t ->]. rewrite drop_append.
  destruct (span_split t) as (post & E & Hall & Hhead).
  destruct (Py.span cls t) as [|c r] eqn:Hsp; [discriminate|].
  intros [= <-]. exists post. rewrite <- E. repeat split; auto. discriminate.
Qed.

Lemma occurs_match_here (c : ascii) (t : string) :
  cls c = true -> Py.match_here lit cls (lit ++ String c t) <> None.
Proof.
  intros Hc. unfold Py.match_here.
  rewrite prefix_append, drop_append. cbn [Py.span]. rewrite Hc. discriminate.
Qed.

Lemma search_run_unfold (s : string) :
  Py.search_run lit cls s =
  match Py.match_here lit cls s with
  | Some run => Some run
  | None =>
      match s with
      | EmptyString => None
      | String _ s' => Py.search_run lit cls s'
      end
  end.
Proof. destruct s; reflexivity. Qed.

(** What the search returns is the capture of the leftmost occurrence. *)
Lemma search_run_sound (s run : string) :
  Py.search_run lit cls s = Some run -> leftmost_run lit cls s run.
Proof.
  revert run; induction s as [|x s IH]; intros run; rewrite search_run_unfold.
  - destruct (Py.match_here lit cls "") eqn:Hm; [|discriminate].
    intros [= <-]. destruct (match_here_occurs _ _ Hm) as (post & E & H).
    exists "", post. cbn [append]. repeat split; try apply H; auto.
    intros; cbn; lia.
  - destruct (Py.match_here lit cls (String x s)) eqn:Hm.
    + intros [= <-]. destruct (match_here_occurs _ _ Hm) as (post & E & H).
      exists "", post. cbn [append]. repeat split; try apply H; auto.
      intros; cbn; lia.
    + intros Hs. destruct (IH _ Hs) as (pre & post & E & Hne & Hall & Hh & Hmin).
      exists (String x pre), post. cbn [append]. rewrite <- E.
      repeat split; auto.
      intros pre' (c & t & E' & Hc). destruct pre' as [|y pre'].
      * cbn [append] in E'. rewrite E' in Hm.
        now apply occurs_match_here in Hm.
      * cbn [append] in E'. injection E' as _ E'.
        cbn [String.length]. apply le_n_S, Hmin. now exists c, t.
Qed.

(** The search finds an occurrence when there is one. *)
Lemma search_run_complete (pre s : string) :
  occurs_at lit cls pre s -> exists run, Py.search_run lit cls s = Some run.
Proof.
  intros (c & t & -> & Hc). induction pre as [|x pre IH].
  - cbn [append]. rewrite search_run_unfold.
    destruct (Py.match_here lit cls (lit ++ String c t)) as [run|] eqn:Hm.
    + now exists run.
    + now apply occurs_match_here in Hm.
  - cbn [append]. rewrite search_run_unfold.
    destruct (Py.match_here lit cls _) as [run|]; [now exists run | exact IH].
Qed.

Lemma append_same_length (a a' b b' : string) :
  a ++ b = a' ++ b' -> String.length a = String.length a' ->
  a = a' /\ b = b'.
Proof.
  revert a'; induction a as [|x a IH]; intros [|y a'] E L;
    try discriminate L.
  - now split.
  - cbn [append] in E. injection E as -> E. injection L as L.
    destruct (IH _ E L) as [-> ->]. now split.
Qed.

Lemma leftmost_run_occurs (s run pre post : string) :
  s = pre ++ lit ++ run ++ post -> run <> "" -> all_chars cls run = true ->
  occurs_at lit cls pre s.
Proof.
  intros -> Hne Hall. destruct run as [|c r]; [contradiction|].
  cbn [all_chars] in Hall. apply andb_true_iff in Hall as [Hc _].
  now exists c, (r ++ post).
Qed.

(** The search is the leftmost, longest capture. *)
Lemma search_run_spec (s run : string) :
  Py.search_run lit cls s = Some run <-> leftmost_run lit cls s run.
Proof.
  split; [apply search_run_sound|].
  intros (pre & post & E & Hne & Hall & Hh & Hmin).
  destruct (search_run_complete pre s) as [run' Hs].
  { exact (leftmost_run_occurs _ _ _ _ E Hne Hall). }
  rewrite Hs. f_equal.
  destruct (search_run_sound _ _ Hs)
    as (pre' & post' & E' & Hne' & Hall' & Hh' & Hmin').
  assert (L : String.length pre = String.length pre').
  { apply Nat.le_antisymm.
    - apply Hmin. exact (leftmost_run_occurs _ _ _ _ E' Hne' Hall').
    - apply Hmin'. exact (leftmost_run_occurs _ _ _ _ E Hne Hall). }
  rewrite E in E'. destruct (append_same_length _ _ _ _ E' L) as [_ E1].
  destruct (append_same_length _ _ _ _ E1 eq_refl) as [_ E2].
  rewrite <- (span_append run post Hall Hh), E2.
  symmetry. now apply span_append.
Qed.

Lemma search_run_none (s : string) :
  Py.search_run lit cls s = None <-> forall pre, ~ occurs_at lit cls pre s.
Proof.
  split.
  - intros Hs pre Ho. destruct (search_run_complete _ _ Ho) as [run Hr].
    congruence.
  - intros Hno. destruct (Py.search_run lit cls s) as [run|] eqn:Hs;
      [|reflexivity].
    destruct (search_run_sound _ _ Hs) as (pre & post & E & Hne & Hall & _).
    exfalso. apply (Hno pre). exact (leftmost_run_occurs _ _ _ _ E Hne Hall).
Qed.

End Scan.

(** ** The loops *)

Section Loops.

Variable loads : string -> decoded.

Lemma kyvex_body_decoded (st : state) (raw_line : string) (v : value) :
  decodes_to loads raw_line v ->
  kyvex_body loads st raw_line = kyvex_event st v.
Proof.
  intros (Hne & Hc & line & Hu & Hl). unfold kyvex_body.
  apply String.eqb_neq in Hne. rewrite Hne, Hc. cbn [orb].
  now rewrite Hu, Hl.
Qed.

Lemma kyvex_body_undecodable (st : state) (raw_line : string) :
  undecodable loads raw_line ->
  kyvex_body loads st raw_line = OK (Next st).
Proof.
  intros (Hne & Hc & line & Hu & Hl). unfold kyvex_body.
  apply String.eqb_neq in Hne. rewrite Hne, Hc. cbn [orb].
  now rewrite Hu, Hl.
Qed.

Lemma kyvex_event_other (st : state) (v : value) :
  is_object_or_string v = false -> kyvex_event st v = OK (Next st).
Proof. destruct v; try reflexivity; discriminate. Qed.

Lemma clean_token_str (s : string) : clean_token (VStr s) = OK (clean_text s).
Proof. destruct s; reflexivity. Qed.

(** The mode tracker on a str. *)
Lemma track_mode_str (m : mode) (c : string) :
  track_mode m (VStr c) =
  let m1 := if Py.contains "<think>" c then ModeThink else m in
  let c1 := if Py.contains "<think>" c then Py.replace "<think>" "" c else c in
  OK (if Py.contains "</think>" c1 then ModeResponse else m1,
      VStr (if Py.contains "</think>" c1
            then Py.replace "</think>" "" c1 else c1)).
Proof.
  unfold track_mode. cbn [py_in bind].
  destruct (Py.contains "<think>" c); cbn [py_replace bind snd py_in];
    destruct (Py.contains "</think>" _); reflexivity.
Qed.

(** A structured event with a text that is no error signal. *)
Lemma kyvex_event_text (st : state) (data : dict) (c : string) :
  is_error_event data = false -> event_content data = VStr c ->
  exists m c',
    track_mode (current_mode st) (VStr c) = OK (m, VStr c') /\
    kyvex_event st (VDict data) =
    OK (Next (append_token st
                (append_if_truthy Url (dict_get "imageUrl" data)
                   (append_if_truthy Base64 (dict_get "imageBase64" data)
                      (images st)))
                m (clean_text c'))).
Proof.
  intros Herr Hc. unfold is_error_event in Herr.
  cbn [kyvex_event]. rewrite Herr, Hc.
  rewrite track_mode_str. cbv zeta. eexists _, _. split; [reflexivity|].
  cbn [bind snd fst]. rewrite clean_token_str. reflexivity.
Qed.

End Loops.

Section ForLines.

Context {S : Type} (body : S -> string -> except (flow S)).

(** A line the body passes over with the state as it was is as good as not
    there. *)
Lemma for_lines_skip (raw_line : string) :
  (forall st, body st raw_line = OK (Next st)) ->
  forall pre post fault st,
    for_lines body (pre ++ raw_line :: post)%list fault st =
    for_lines body (pre ++ post)%list fault st.
Proof.
  intros Hskip pre post fault. induction pre as [|l pre IH]; intros st.
  - cbn [app for_lines]. now rewrite Hskip.
  - cbn [app for_lines]. destruct (body st l) as [[st'| |]|]; cbn [bind]; auto.
Qed.

Lemma for_lines_reads_through (pre rest : list string) (fault : option exn)
  (st st' : S) :
  reads_through body pre st st' ->
  for_lines body (pre ++ rest)%list fault st = for_lines body rest fault st'.
Proof.
  induction 1 as [|l pre st st1 st2 Hl _ IH]; [reflexivity|].
  cbn [app for_lines]. now rewrite Hl.
Qed.

End ForLines.

(** The loop of the image handler has no [return]. *)
Lemma imagen_body_no_return (loads : string -> decoded)
  (st : imagen_state) (raw_line : string) (r : result) :
  imagen_body loads st raw_line <> OK (Return r).
Proof.
  unfold imagen_body. destruct (raw_line =? ""); [discriminate|].
  destruct (unframe _); [|discriminate].
  destruct (imagen_decode _ _ _) as [chunk imgs].
  destruct chunk; cbn [as_str bind]; try discriminate.
  rewrite clean_token_str. discriminate.
Qed.

Lemma imagen_stream_no_return (loads : string -> decoded)
  (ls : list string) (fault : option exn) (st : imagen_state) (r : result) :
  imagen_stream loads ls fault st <> OK (inr r).
Proof.
  unfold imagen_stream. revert st; induction ls as [|l ls IH]; intros st.
  - cbn. destruct fault; discriminate.
  - cbn [for_lines].
    destruct (imagen_body loads st l) as [[st'|st'|r']|e] eqn:Hb;
      cbn [bind]; try discriminate.
    + apply IH.
    + now apply imagen_body_no_return in Hb.
Qed.

Lemma lower_char_idempotent (c : ascii) :
  Py.lower_char (Py.lower_char c) = Py.lower_char c.
Proof.
  destruct c as [[] [] [] [] [] [] [] []]; reflexivity.
Qed.

Lemma lower_idempotent (s : string) : Py.lower (Py.lower s) = Py.lower s.
Proof.
  induction s as [|c s IH]; [reflexivity|].
  cbn [Py.lower]. now rewrite lower_char_idempotent, IH.
Qed.

(** ** The claims *)

(** *** Lines that are not decoded *)

Lemma kyvex_body_decode_raises (loads : string -> decoded) (st : state)
  (raw_line : string) (e : exn) :
  decode_raises loads raw_line e -> kyvex_body loads st raw_line = Raise e.
Proof.
  intros (Hne & Hc & line & Hu & Hl). unfold kyvex_body.
  apply String.eqb_neq in Hne. rewrite Hne, Hc. cbn [orb].
  now rewrite Hu, Hl.
Qed.

(** C1, amended: on the main path a line whose decode fails with
    JSONDecodeError, or whose decoded value is neither an object nor a
    string, is passed over.  The state after it is the state before it, so
    the stream gives what it gives without the line: the text of the line
    reaches no channel.  A line on which the decoder raises another
    exception is not passed over: the exception leaves the loop, and when
    the lines before it are read through the request fails with its
    description. *)
Theorem undecoded_line_is_skipped (loads : string -> decoded)
  (raw_line : string) :
  (undecodable loads raw_line \/
   (exists v, decodes_to loads raw_line v /\ is_object_or_string v = false) ->
   (forall st, kyvex_body loads st raw_line = OK (Next st)) /\
   (forall pre post fault st,
       kyvex_stream loads (pre ++ raw_line :: post)%list fault st =
       kyvex_stream loads (pre ++ post)%list fault st)) /\
  (forall e,
      decode_raises loads raw_line e ->
      (forall st, kyvex_body loads st raw_line = Raise e) /\
      (forall p post body pre rest fault st,
          post p =
            PostReturns (Response 200 body (pre ++ raw_line :: rest) fault) ->
          reads_through (kyvex_body loads) pre initial_state st ->
          kyvex_aggregate loads p post = Failure None (StrOf e))).
Proof.
  split.
  - intros H.
    assert (Hskip : forall st, kyvex_body loads st raw_line = OK (Next st)).
    { intros st. destruct H as [H | (v & Hd & Hv)].
      - now apply kyvex_body_undecodable.
      - rewrite (kyvex_body_decoded _ _ _ _ Hd). now apply kyvex_event_other. }
    split; [exact Hskip|].
    intros pre post fault st. unfold kyvex_stream. now apply for_lines_skip.
  - intros e He. split.
    + intros st. now apply kyvex_body_decode_raises.
    + intros p post body pre rest fault st Hpost Hpre.
      unfold kyvex_aggregate, kyvex_stream. rewrite Hpost.
      cbn [status_code lines read_fault Z.eqb Pos.eqb negb].
      rewrite (for_lines_reads_through _ _ _ _ _ _ Hpre).
      cbn [for_lines]. now rewrite (kyvex_body_decode_raises _ _ _ _ He).
Qed.

(** The theorem at the plain line hello between two tokens, and at a
    decoder that gives up on a deeply nested line. *)
Lemma undecoded_line_is_skipped_witness :
  kyvex_stream json_loads [q "{'token':'a'}"; "hello"; q "{'token':'b'}"]
    None initial_state =
  kyvex_stream json_loads [q "{'token':'a'}"; q "{'token':'b'}"]
    None initial_state /\
  kyvex_aggregate
    (fun line => if Py.startswith "[[[[" line
                 then DecodeRaises RecursionError else json_loads line)
    (Payload (VStr "hi") "kyvex" false false false false)
    (fun _ => PostReturns (Response 200 ""
       [q "{'token':'a'}"; "[[[[[[[[1]]]]]]]]"; q "{'token':'b'}"] None)) =
  Failure None (StrOf RecursionError).
Proof.
  split.
  - refine (proj2 (proj1 (undecoded_line_is_skipped json_loads "hello") _)
              [q "{'token':'a'}"] [q "{'token':'b'}"] None initial_state).
    left. line_by_evaluation.
  - refine (proj2 (proj2 (undecoded_line_is_skipped _ "[[[[[[[[1]]]]]]]]")
                     RecursionError _)
              _ _ "" [q "{'token':'a'}"] [q "{'token':'b'}"] None
              (State "a" "" [] ModeResponse) _ _).
    + line_by_evaluation.
    + reflexivity.
    + eapply reads_cons; [reflexivity | apply reads_nil].
Defined.

(** C1 as stated fails.  The line hello is not JSON and the line [1,2] is
    an array; the claim has the text of each appended to the visible channel
    (hello normalizes to itself), and the main path returns an empty visible
    text for the two of them. *)
Lemma plain_text_line_is_dropped :
  json_loads "hello" = DecodeError /\
  json_loads "[1,2]" = Decoded (VList [VInt 1; VInt 2]) /\
  clean_token (VStr "hello") = OK "hello" /\
  kyvex_body json_loads initial_state "hello" = OK (Next initial_state) /\
  full_response initial_state <> full_response initial_state ++ "hello" /\
  process_kyvex_request json_loads [("prompt", VStr "hi")]
    (fun _ => PostReturns (Response 200 "" ["hello"; "[1,2]"] None)) =
  OK (Success (Meta "kyvex" false false false) "" "" []).
Proof. repeat split; try reflexivity. discriminate. Qed.

(** *** The pattern scans *)

(** C2, amended: the two pattern scans are part of the image-generation path
    only.  There, for every processed event whose text is a str, both scans
    run on the text whatever the structured fields gave: the image list
    grows by the refs of the base64 scan, then by those of the URL scan.  The
    base64 scan captures the longest run of the alphabet after the leftmost
    marker that is followed by one; the URL scan captures the leftmost URL
    up to the first white space, quote or closing parenthesis, and gives a
    ref when [url_is_image] holds of it. *)
Theorem imagen_fallback_scans (loads : string -> decoded)
  (st : imagen_state) (raw_line content s : string) (imgs : list image) :
  raw_line <> "" ->
  unframe (Py.strip raw_line) = Some content ->
  imagen_decode loads content (i_images st) = (VStr s, imgs) ->
  (exists st',
      imagen_body loads st raw_line = OK (Next st') /\
      i_images st' = (imgs ++ b64_refs s ++ url_refs s)%list) /\
  (forall data,
      Py.startswith "{" content = true ->
      loads content = Decoded (VDict data) ->
      imgs = append_if_truthy Base64 (dict_get "imageBase64" data)
               (append_if_truthy Url (dict_get "imageUrl" data)
                  (i_images st))) /\
  (forall run,
      search_b64 s = Some run <-> leftmost_run "base64," is_b64_char s run) /\
  (search_b64 s = None <->
   forall pre, ~ occurs_at "base64," is_b64_char pre s) /\
  (forall url,
      search_url s = Some url <->
      exists run,
        url = "https://" ++ run /\ leftmost_run "https://" is_url_char s run) /\
  (search_url s = None <->
   forall pre, ~ occurs_at "https://" is_url_char pre s).
Proof.
  intros Hne Hu Hd. split; [|split; [|split; [|split; [|split]]]].
  - unfold imagen_body. apply String.eqb_neq in Hne. rewrite Hne, Hu, Hd.
    cbn [as_str bind]. rewrite clean_token_str. cbn [bind].
    eexists. split; [reflexivity|]. cbn [i_images].
    unfold imagen_scan, b64_refs, url_refs.
    destruct (search_b64 s); destruct (search_url s) as [url|];
      try destruct (url_is_image url);
      rewrite ?app_nil_r, <- ?app_assoc; reflexivity.
  - intros data Hbrace Hl. unfold imagen_decode in Hd.
    rewrite Hbrace, Hl in Hd. cbn [orb] in Hd. now injection Hd as _ <-.
  - intros run. apply search_run_spec.
  - apply search_run_none.
  - intros url. unfold search_url. split.
    + destruct (Py.search_run "https://" is_url_char s) as [run|] eqn:Hs;
        [|discriminate].
      intros [= <-]. exists run. split; [reflexivity|].
      now apply search_run_spec.
    + intros (run & -> & Hl). apply search_run_spec in Hl. now rewrite Hl.
  - unfold search_url. rewrite <- search_run_none.
    destruct (Py.search_run "https://" is_url_char s); split;
      try reflexivity; discriminate.
Qed.

(** The theorem at an event whose structured field and whose text hold the
    same URL: the ref of the field comes first, then the base64 ref and the
    URL ref of the text, so the URL is there twice. *)
Lemma imagen_fallback_scans_witness :
  exists st',
    imagen_body json_loads initial_imagen_state
      (q "data: {'imageUrl':'https://x/api/files/1.png','token':'see https://x/api/files/1.png (base64,QUJD)'}")
    = OK (Next st') /\
    i_images st' =
    [Image Url (VStr "https://x/api/files/1.png");
     Image Base64 (VStr "QUJD");
     Image Url (VStr "https://x/api/files/1.png")].
Proof.
  refine (proj1 (imagen_fallback_scans json_loads initial_imagen_state _ _
                   "see https://x/api/files/1.png (base64,QUJD)"
                   [Image Url (VStr "https://x/api/files/1.png")] _ _ _)).
  - vm_compute. discriminate.
  - reflexivity.
  - reflexivity.
Defined.

(** C2 as stated fails on the default chat path: the text of the event holds
    a base64 payload and an image URL, both scans give a ref for it, and
    after the event the main path holds neither ref; the request returns an
    empty image list. *)
Lemma main_path_runs_no_scan :
  b64_refs "see https://x/api/files/1.png (base64,QUJD)" =
    [Image Base64 (VStr "QUJD")] /\
  url_refs "see https://x/api/files/1.png (base64,QUJD)" =
    [Image Url (VStr "https://x/api/files/1.png")] /\
  (exists st',
      kyvex_body json_loads initial_state
        (q "{'token':'see https://x/api/files/1.png (base64,QUJD)'}") =
        OK (Next st') /\
      ~ In (Image Base64 (VStr "QUJD")) (images st') /\
      ~ In (Image Url (VStr "https://x/api/files/1.png")) (images st')) /\
  process_kyvex_request json_loads [("prompt", VStr "hi")]
    (fun _ => PostReturns (Response 200 ""
       [q "{'token':'see https://x/api/files/1.png (base64,QUJD)'}"] None)) =
  OK (Success (Meta "kyvex" false false false)
        "see https://x/api/files/1.png (base64,QUJD)" "" []).
Proof.
  split; [reflexivity|]. split; [reflexivity|]. split; [|reflexivity].
  eexists. split; [reflexivity|]. split; intros [].
Qed.

(** *** The upstream error signal *)

(** C3, amended: on the main path, when the lines before it let the loop go
    on and a line decodes to an object whose status is error, the request
    fails with the message of that event, or with the unknown-error message
    when the event has no message or a falsy one.  Nothing that was
    gathered before is in the result.  (The image-generation path has no
    such test.) *)
Theorem error_event_fails_the_request (loads : string -> decoded)
  (p : payload) (post : payload -> upstream) (body : string)
  (pre : list string) (raw_line : string) (rest : list string)
  (fault : option exn) (st : state) (data : dict) :
  post p = PostReturns (Response 200 body (pre ++ raw_line :: rest) fault) ->
  reads_through (kyvex_body loads) pre initial_state st ->
  decodes_to loads raw_line (VDict data) ->
  is_error_event data = true ->
  kyvex_aggregate loads p post = Failure None (Msg (error_message data)) /\
  (truthy (dict_get "message" data) = true ->
   error_message data = dict_get "message" data) /\
  (truthy (dict_get "message" data) = false ->
   error_message data = VStr "Unknown upstream error").
Proof.
  intros Hpost Hpre Hd Herr. split; [|split].
  - unfold kyvex_aggregate, kyvex_stream. rewrite Hpost.
    cbn [status_code lines read_fault Z.eqb Pos.eqb negb].
    rewrite (for_lines_reads_through _ _ _ _ _ _ Hpre).
    cbn [for_lines]. rewrite (kyvex_body_decoded _ _ _ _ Hd).
    unfold is_error_event in Herr. cbn [kyvex_event]. rewrite Herr.
    reflexivity.
  - intros Ht. unfold error_message, py_or. now rewrite Ht.
  - intros Ht. unfold error_message, py_or. now rewrite Ht.
Qed.

(** The theorem at an error event after a token and before another. *)
Lemma error_event_fails_the_request_witness :
  kyvex_aggregate json_loads (Payload (VStr "hi") "kyvex" false false false false)
    (fun _ => PostReturns (Response 200 ""
       [q "{'token':'partial'}";
        q "{'status':'error','message':'rate limited'}";
        q "{'token':'more'}"] None)) =
  Failure None (Msg (VStr "rate limited")).
Proof.
  refine (proj1 (error_event_fails_the_request json_loads _ _ ""
                   [q "{'token':'partial'}"]
                   (q "{'status':'error','message':'rate limited'}")
                   [q "{'token':'more'}"] None
                   (State "partial" "" [] ModeResponse)
                   [("status", VStr "error"); ("message", VStr "rate limited")]
                   _ _ _ _)).
  - reflexivity.
  - eapply reads_cons; [reflexivity | apply reads_nil].
  - line_by_evaluation.
  - reflexivity.
Defined.

(** C3 as stated fails on the image-generation path: the error event is no
    failure there; its line is appended to the response after the text that
    came before it, and the request succeeds. *)
Lemma imagen_path_ignores_error_event :
  process_kyvex_request json_loads
    [("prompt", VStr "a cat"); ("model", VStr "imagen")]
    (fun _ => PostReturns (Response 200 ""
       [q "{'token':'hi '}";
        q "{'status':'error','message':'rate limited'}"] None)) =
  OK (Success imagen_meta
        (q "hi {'status':'error','message':'rate limited'}") "" []) /\
  process_kyvex_request json_loads
    [("prompt", VStr "a cat"); ("model", VStr "imagen")]
    (fun _ => PostReturns (Response 200 ""
       [q "{'token':'hi '}";
        q "{'status':'error','message':'rate limited'}"] None)) <>
  OK (Failure None (Msg (VStr "rate limited"))).
Proof. split; [reflexivity | discriminate]. Qed.

(** *** The token normalizer *)

(** C4, amended: on every str the normalizer replaces the two-character
    escapes of newline and tab by the characters, then deletes a leading
    double quote if there is one and, on its own, a trailing double quote if
    there is one (the last character, or the one before a final newline),
    then replaces the escaped quotes by bare quotes.  It returns a string
    for every str and for None, the empty one for the empty str and for
    None. *)
Theorem clean_token_steps :
  (forall s,
      clean_token (VStr s) =
      OK (unescape_quotes
            (strip_trailing_quote
               (strip_leading_quote (unescape_controls s))))) /\
  clean_token (VStr "") = OK "" /\
  clean_token VNone = OK "".
Proof.
  split; [|split; reflexivity].
  intros s. rewrite clean_token_str. unfold clean_text.
  now rewrite sub_edge_quotes_outer.
Qed.

(** C4 as stated fails: a text with a quote at its start only loses the
    quote, and so does a text with a quote at its end only, where the
    normalizer of the description keeps both texts as they are. *)
Lemma one_sided_quote_is_stripped :
  clean_token (VStr (String Py.quote "abc")) = OK "abc" /\
  spec_normalize (String Py.quote "abc") = String Py.quote "abc" /\
  clean_token (VStr ("abc" ++ chr Py.quote)) = OK "abc" /\
  spec_normalize ("abc" ++ chr Py.quote) = "abc" ++ chr Py.quote /\
  clean_token (VStr (String Py.quote "abc")) <>
  OK (spec_normalize (String Py.quote "abc")).
Proof. repeat split; try reflexivity. discriminate. Qed.

(** *** The alias table *)

(** C5, amended: the resolution does not see the case of its input; an
    input whose lowercase form is no key of the table resolves to that
    lowercase form. *)
Theorem resolve_model_ignores_case :
  (forall a b, Py.lower a = Py.lower b -> resolve_model a = resolve_model b) /\
  (forall s, resolve_model (Py.lower s) = resolve_model s) /\
  (forall s,
      map_lookup (Py.lower s) MODEL_MAP = None ->
      resolve_model s = Py.lower s).
Proof.
  split; [|split].
  - intros a b H. unfold resolve_model. now rewrite H.
  - intros s. unfold resolve_model. now rewrite lower_idempotent.
  - intros s H. unfold resolve_model, select_model, map_get_default.
    now rewrite H.
Qed.

(** The theorem at two spellings of an alias and at an unknown name. *)
Lemma resolve_model_ignores_case_witness :
  resolve_model "Claude" = resolve_model "CLAUDE" /\
  resolve_model "foo" = "foo".
Proof.
  split.
  - apply (proj1 resolve_model_ignores_case "Claude" "CLAUDE"). reflexivity.
  - apply (proj2 (proj2 resolve_model_ignores_case) "foo"). reflexivity.
Defined.

(** C5 as stated fails: the mixed-case unknown name Foo does not stay as
    given, it resolves to foo. *)
Lemma unknown_model_is_lowercased :
  map_lookup (Py.lower "Foo") MODEL_MAP = None /\
  resolve_model "Foo" = "foo" /\
  resolve_model "Foo" <> "Foo".
Proof. repeat split; try reflexivity. discriminate. Qed.

(** *** The mode tracker *)

(** A line that decodes to a str skips the mode tracker. *)
Lemma kyvex_body_json_string (loads : string -> decoded) (st : state)
  (raw_line s : string) :
  decodes_to loads raw_line (VStr s) ->
  kyvex_body loads st raw_line =
  OK (Next (State (full_response st ++ clean_text s) (full_thought st)
              (images st) (current_mode st))).
Proof.
  intros Hd. rewrite (kyvex_body_decoded _ _ _ _ Hd).
  cbn [kyvex_event]. now rewrite clean_token_str.
Qed.




(** C9, amended: on the main path, after a structured event whose text
    (token or content) holds the closing marker the mode is visible,
    whatever the mode before and wherever an opening marker stands in the
    text: the opening marker is looked for and deleted first, and the
    closing marker is still there after that.  A fragment that comes as a
    bare JSON string is not looked at and leaves the mode as it was. *)
Theorem closing_marker_ends_in_visible :
  (forall (loads : string -> decoded) (st : state) (raw_line : string)
          (data : dict) (c : string),
      decodes_to loads raw_line (VDict data) ->
      is_error_event data = false ->
      event_content data = VStr c ->
      Py.contains "</think>" c = true ->
      exists st',
        kyvex_body loads st raw_line = OK (Next st') /\
        current_mode st' = ModeResponse) /\
  (forall (loads : string -> decoded) (st : state) (raw_line s : string),
      decodes_to loads raw_line (VStr s) ->
      exists st',
        kyvex_body loads st raw_line = OK (Next st') /\
        current_mode st' = current_mode st).
Proof.
  split.
  - intros loads st raw_line data c Hd Herr Hc Hclose.
    rewrite (kyvex_body_decoded _ _ _ _ Hd).
    destruct (kyvex_event_text st data c Herr Hc) as (m & c' & Ht & ->).
    rewrite track_mode_str in Ht. cbv zeta in Ht.
    assert (Hkeep :
      Py.contains "</think>"
        (if Py.contains "<think>" c then Py.replace "<think>" "" c else c)
      = true).
    { destruct (Py.contains "<think>" c); [|exact Hclose].
      now apply (closing_marker_survives 0). }
    rewrite Hkeep in Ht. injection Ht as <- <-.
    eexists. split; [reflexivity|]. reflexivity.
  - intros loads st raw_line s Hd.
    rewrite (kyvex_body_json_string _ _ _ _ Hd).
    eexists. split; reflexivity.
Qed.

(** The theorem at the fragment of the claim, read in reasoning mode. *)
Lemma closing_marker_ends_in_visible_witness :
  exists st',
    kyvex_body json_loads (State "" "so far" [] ModeThink)
      (q "{'token':'</think>x<think>'}") = OK (Next st') /\
    current_mode st' = ModeResponse.
Proof.
  refine (proj1 closing_marker_ends_in_visible json_loads _ _
            [("token", VStr "</think>x<think>")] "</think>x<think>" _ _ _ _).
  - line_by_evaluation.
  - reflexivity.
  - reflexivity.
  - reflexivity.
Defined.

(** C9 as stated fails for a fragment that comes as a bare JSON string: read
    in reasoning mode, the fragment with the closing marker leaves the mode
    at reasoning, and the token after it still goes to the reasoning
    text. *)
Lemma string_fragment_keeps_reasoning_mode :
  Py.contains "</think>" "</think>x" = true /\
  kyvex_body json_loads (State "" "" [] ModeThink) (q "'</think>x'") =
  OK (Next (State "</think>x" "" [] ModeThink)) /\
  ModeThink <> ModeResponse /\
  kyvex_stream json_loads
    [q "{'token':'<think>'}"; q "'</think>x'"; q "{'token':'y'}"]
    None initial_state =
  OK (inl (State "</think>x" "y" [] ModeThink)).
Proof. repeat split; try reflexivity. discriminate. Qed.

(** *** Whole requests *)

(** C7: for the lines of the two tokens Hel and lo and the sentinel, the
    request succeeds with the visible text Hello, an empty reasoning text and
    no image; what the stream holds after the sentinel is not read. *)
Theorem hello_stream_result :
  forall (body : string) (rest : list string) (fault : option exn),
    (forall p,
        kyvex_aggregate json_loads p
          (fun _ => PostReturns (Response 200 body
             (q "{'token':'Hel'}" :: q "{'token':'lo'}" :: "[DONE]" :: rest)
             fault)) =
        Success (kyvex_meta p) "Hello" "" []) /\
    process_kyvex_request json_loads [("prompt", VStr "hi")]
      (fun _ => PostReturns (Response 200 body
         (q "{'token':'Hel'}" :: q "{'token':'lo'}" :: "[DONE]" :: rest)
         fault)) =
    OK (Success (Meta "kyvex" false false false) "Hello" "" []).
Proof. intros body rest fault. split; [intros p|]; reflexivity. Qed.

(** C8 fails on the code: with the JSON body of prompt hi and model 3 (or
    model null), line 193 calls [lower] on a value that is no str before the
    [try] is entered, and the exception leaves [process_kyvex_request]
    whatever the decoder and the upstream do. *)
Theorem numeric_model_raises :
  forall (loads : string -> decoded) (post : payload -> upstream),
    process_kyvex_request loads
      [("prompt", VStr "hi"); ("model", VInt 3)] post =
    Raise AttributeError /\
    process_kyvex_request loads
      [("prompt", VStr "hi"); ("model", VNone)] post =
    Raise AttributeError.
Proof. split; reflexivity. Qed.

(** With a str for the model, or none, the request returns one of the two
    shapes; an exception leaves the function in the other cases only. *)
Lemma process_kyvex_request_returns (loads : string -> decoded)
  (params : dict) (post : payload -> upstream) :
  (exists r, process_kyvex_request loads params post = OK r) <->
  (dict_lookup "model" params = None \/
   exists s, dict_lookup "model" params = Some (VStr s)).
Proof.
  unfold process_kyvex_request, dict_get_default. split.
  - intros [r H]. destruct (dict_lookup "model" params) as [v|]; [|now left].
    right. destruct v; try discriminate H. now eexists.
  - intros [H | [s H]]; rewrite H; cbn [py_lower bind];
      destruct (select_model _ =? _); eexists; reflexivity.
Qed.

(** *** The image-generation path and the markers *)

(** C10: the image-generation path has no mode.  The thought of every
    success it returns is empty; every processed event whose text is a str
    has the whole normalized text appended to the response; and the
    normalizer leaves the two markers as they are, so that the fragments of
    a reasoning stream all end in the response. *)
Theorem imagen_keeps_think_markers :
  (forall (loads : string -> decoded) (params : dict)
          (post : payload -> upstream) m response thought imgs,
      process_imagen_specific loads params post =
        Success m response thought imgs ->
      thought = "") /\
  (forall (loads : string -> decoded) (st : imagen_state)
          (raw_line content s : string) (imgs : list image),
      raw_line <> "" ->
      unframe (Py.strip raw_line) = Some content ->
      imagen_decode loads content (i_images st) = (VStr s, imgs) ->
      exists st',
        imagen_body loads st raw_line = OK (Next st') /\
        i_full_response st' = i_full_response st ++ clean_text s) /\
  clean_text "<think>" = "<think>" /\
  clean_text "</think>" = "</think>" /\
  process_kyvex_request json_loads
    [("prompt", VStr "a cat"); ("model", VStr "6")]
    (fun _ => PostReturns (Response 200 ""
       [q "{'token':'<think>'}"; q "{'token':'plan'}";
        q "{'token':'</think>'}"; "answer"] None)) =
  OK (Success imagen_meta "<think>plan</think>answer" "" []).
Proof.
  split; [|split; [|repeat split; reflexivity]].
  - intros loads params post m response thought imgs.
    unfold process_imagen_specific.
    destruct (post _) as [e|resp]; [discriminate|].
    destruct (negb _); [discriminate|].
    destruct (imagen_stream _ _ _ _) as [[st|r]|e] eqn:Hs; cbn.
    + now intros [= _ _ <- _].
    + now apply imagen_stream_no_return in Hs.
    + discriminate.
  - intros loads st raw_line content s imgs Hne Hu Hd.
    unfold imagen_body. apply String.eqb_neq in Hne. rewrite Hne, Hu, Hd.
    cbn [as_str bind]. rewrite clean_token_str. cbn [bind].
    eexists. split; reflexivity.
Qed.

(** The theorem at a raw line that holds both markers. *)
Lemma imagen_keeps_think_markers_witness :
  exists st',
    imagen_body json_loads (ImagenState "so far " [])
      "data: <think>plan</think>answer" = OK (Next st') /\
    i_full_response st' = "so far <think>plan</think>answer".
Proof.
  refine (proj1 (proj2 imagen_keeps_think_markers) json_loads
            (ImagenState "so far " []) _ "<think>plan</think>answer"
            "<think>plan</think>answer" [] _ _ _).
  - vm_compute. discriminate.
  - reflexivity.
  - reflexivity.
Defined.

(** ** Further properties of the two handlers *)

(** *** How a stream ends *)

Lemma kyvex_body_sentinel (loads : string -> decoded) (st : state)
  (raw_line : string) :
  sentinel_line raw_line -> kyvex_body loads st raw_line = OK (Break st).
Proof.
  intros (Hne & Hc & Hu). unfold kyvex_body.
  apply String.eqb_neq in Hne. now rewrite Hne, Hc, Hu.
Qed.

(** X1: when the lines before the sentinel are read through, the request
    succeeds with the trimmed texts and the images gathered so far; neither
    the lines after the sentinel nor a fault of the read after it matter. *)
Theorem sentinel_ends_the_stream (loads : string -> decoded)
  (p : payload) (post : payload -> upstream) (body : string)
  (pre : list string) (raw_line : string) (rest : list string)
  (fault : option exn) (st : state) :
  post p = PostReturns (Response 200 body (pre ++ raw_line :: rest) fault) ->
  reads_through (kyvex_body loads) pre initial_state st ->
  sentinel_line raw_line ->
  kyvex_aggregate loads p post =
  Success (kyvex_meta p) (Py.strip (full_response st))
          (Py.strip (full_thought st)) (images st).
Proof.
  intros Hpost Hpre Hs. unfold kyvex_aggregate, kyvex_stream. rewrite Hpost.
  cbn [status_code lines read_fault Z.eqb Pos.eqb negb].
  rewrite (for_lines_reads_through _ _ _ _ _ _ Hpre).
  cbn [for_lines]. now rewrite (kyvex_body_sentinel _ _ _ Hs).
Qed.

Lemma sentinel_ends_the_stream_witness :
  kyvex_aggregate json_loads (Payload (VStr "hi") "kyvex" false false false false)
    (fun _ => PostReturns (Response 200 ""
       [q "{'token':' one '}"; " data:  [DONE] "; q "{'token':'two'}"]
       (Some (TransportError "reset")))) =
  Success (Meta "kyvex" false false false) "one" "" [].
Proof.
  refine (sentinel_ends_the_stream json_loads _ _ ""
            [q "{'token':' one '}"] " data:  [DONE] " [q "{'token':'two'}"]
            (Some (TransportError "reset"))
            (State " one " "" [] ModeResponse) _ _ _).
  - reflexivity.
  - eapply reads_cons; [reflexivity | apply reads_nil].
  - split; [vm_compute; discriminate | split; reflexivity].
Defined.

(** X2: when every line is read through and the stream runs out, the request
    succeeds with what was gathered if the read did not fault, and fails
    with the description of the fault, without any of it, if it did. *)
Theorem exhausted_stream_result (loads : string -> decoded)
  (p : payload) (post : payload -> upstream) (body : string)
  (ls : list string) (fault : option exn) (st : state) :
  post p = PostReturns (Response 200 body ls fault) ->
  reads_through (kyvex_body loads) ls initial_state st ->
  kyvex_aggregate loads p post =
  match fault with
  | None => Success (kyvex_meta p) (Py.strip (full_response st))
                    (Py.strip (full_thought st)) (images st)
  | Some e => Failure None (StrOf e)
  end.
Proof.
  intros Hpost Hls. unfold kyvex_aggregate, kyvex_stream. rewrite Hpost.
  cbn [status_code lines read_fault Z.eqb Pos.eqb negb].
  rewrite <- (app_nil_r ls), (for_lines_reads_through _ _ _ _ _ _ Hls).
  cbn [for_lines]. now destruct fault.
Qed.

Lemma exhausted_stream_result_witness :
  kyvex_aggregate json_loads (Payload (VStr "hi") "kyvex" false false false false)
    (fun _ => PostReturns (Response 200 ""
       [q "{'token':'partial'}"] (Some (TransportError "reset")))) =
  Failure None (StrOf (TransportError "reset")).
Proof.
  refine (exhausted_stream_result json_loads _ _ "" [q "{'token':'partial'}"]
            (Some (TransportError "reset"))
            (State "partial" "" [] ModeResponse) _ _).
  - reflexivity.
  - eapply reads_cons; [reflexivity | apply reads_nil].
Defined.

(** The same three endings on the image-generation path. *)
Lemma imagen_body_sentinel (loads : string -> decoded)
  (st : imagen_state) (raw_line : string) :
  raw_line <> "" -> unframe (Py.strip raw_line) = None ->
  imagen_body loads st raw_line = OK (Break st).
Proof.
  intros Hne Hu. unfold imagen_body.
  apply String.eqb_neq in Hne. now rewrite Hne, Hu.
Qed.

(** X3: on the image-generation path, when the lines are read through, the
    request succeeds with the trimmed response, an empty thought, the fixed
    meta and the images if the stream runs out without a fault or a sentinel
    follows (whatever stands after it); it fails with the description of the
    fault if the read faults at the end. *)
Theorem imagen_stream_endings (loads : string -> decoded)
  (params : dict) (post : payload -> upstream) (body : string)
  (pre : list string) (st : imagen_state) :
  reads_through (imagen_body loads) pre initial_imagen_state st ->
  (forall fault,
      post (imagen_payload params) = PostReturns (Response 200 body pre fault) ->
      process_imagen_specific loads params post =
      match fault with
      | None => Success imagen_meta (Py.strip (i_full_response st)) ""
                        (i_images st)
      | Some e => Failure None (StrOf e)
      end) /\
  (forall raw_line rest fault,
      post (imagen_payload params) =
        PostReturns (Response 200 body (pre ++ raw_line :: rest) fault) ->
      raw_line <> "" -> unframe (Py.strip raw_line) = None ->
      process_imagen_specific loads params post =
      Success imagen_meta (Py.strip (i_full_response st)) "" (i_images st)).
Proof.
  intros Hpre. split.
  - intros fault Hpost. unfold process_imagen_specific, imagen_stream.
    rewrite Hpost. cbn [status_code lines read_fault Z.eqb Pos.eqb negb].
    rewrite <- (app_nil_r pre), (for_lines_reads_through _ _ _ _ _ _ Hpre).
    cbn [for_lines]. now destruct fault.
  - intros raw_line rest fault Hpost Hne Hu.
    unfold process_imagen_specific, imagen_stream.
    rewrite Hpost. cbn [status_code lines read_fault Z.eqb Pos.eqb negb].
    rewrite (for_lines_reads_through _ _ _ _ _ _ Hpre).
    cbn [for_lines]. now rewrite (imagen_body_sentinel _ _ _ Hne Hu).
Qed.

Lemma imagen_stream_endings_witness :
  process_imagen_specific json_loads [("prompt", VStr "a cat")]
    (fun _ => PostReturns (Response 200 ""
       [q "{'token':'done '}"; "[DONE]"; "ignored"] None)) =
  Success imagen_meta "done" "" [].
Proof.
  refine (proj2 (imagen_stream_endings json_loads [("prompt", VStr "a cat")]
                   _ "" [q "{'token':'done '}"] (ImagenState "done " []) _)
            "[DONE]" ["ignored"] None _ _ _).
  - eapply reads_cons; [reflexivity | apply reads_nil].
  - reflexivity.
  - vm_compute. discriminate.
  - reflexivity.
Defined.

(** *** A response whose status is not 200 *)

Lemma take_prefix (n : nat) (s : string) :
  String.prefix (Py.take n s) s = true /\
  String.length (Py.take n s) = Nat.min n (String.length s).
Proof.
  revert n; induction s as [|c s IH]; intros [|n]; try (now split).
  rewrite take_cons. destruct (IH n) as [Hp Hl]. split.
  - cbn [String.prefix]. destruct (ascii_dec c c); [exact Hp | congruence].
  - cbn [String.length]. now rewrite Hl.
Qed.

(** X4: on a response whose status is not 200 both handlers fail with that
    status as the error code and with the start of the body as the message:
    a prefix of the body of at most 300 characters.  The lines of the
    response are not read. *)
Theorem bad_status_result (loads : string -> decoded)
  (params : dict) (p : payload) (post : payload -> upstream)
  (resp : response) :
  status_code resp <> 200%Z ->
  (post p = PostReturns resp ->
   kyvex_aggregate loads p post =
   Failure (Some (status_code resp)) (Msg (VStr (Py.take 300 (text resp))))) /\
  (post (imagen_payload params) = PostReturns resp ->
   process_imagen_specific loads params post =
   Failure (Some (status_code resp)) (Msg (VStr (Py.take 300 (text resp))))) /\
  String.prefix (Py.take 300 (text resp)) (text resp) = true /\
  String.length (Py.take 300 (text resp)) =
    Nat.min 300 (String.length (text resp)).
Proof.
  intros Hs. apply Z.eqb_neq in Hs. split; [|split].
  - intros Hp. unfold kyvex_aggregate. now rewrite Hp, Hs.
  - intros Hp. unfold process_imagen_specific. now rewrite Hp, Hs.
  - apply take_prefix.
Qed.

Lemma bad_status_result_witness :
  kyvex_aggregate json_loads (Payload (VStr "hi") "kyvex" false false false false)
    (fun _ => PostReturns (Response 429 "slow down"
                             [q "{'token':'never read'}"] None)) =
  Failure (Some 429%Z) (Msg (VStr "slow down")).
Proof.
  refine (proj1 (bad_status_result json_loads [] _ _
                   (Response 429 "slow down" [q "{'token':'never read'}"] None)
                   _) _).
  - discriminate.
  - reflexivity.
Defined.

(** *** What the main loop returns and keeps *)

Lemma error_message_truthy (data : dict) : truthy (error_message data) = true.
Proof.
  unfold error_message, py_or.
  destruct (truthy (dict_get "message" data)) eqn:E; [exact E | reflexivity].
Qed.

(** The only [return] in the main loop is that of an error event. *)
Lemma kyvex_body_return (loads : string -> decoded) (st : state)
  (raw_line : string) (r : result) :
  kyvex_body loads st raw_line = OK (Return r) ->
  exists data,
    decodes_to loads raw_line (VDict data) /\ is_error_event data = true /\
    r = Failure None (Msg (error_message data)).
Proof.
  unfold kyvex_body.
  destruct (Py.strip raw_line =? "") eqn:Hne; [discriminate|].
  destruct (Py.startswith ":" (Py.strip raw_line)) eqn:Hc; [discriminate|].
  cbn [orb].
  destruct (unframe (Py.strip raw_line)) as [line|] eqn:Hu; [|discriminate].
  destruct (loads line) as [v| |e] eqn:Hl; [|discriminate|discriminate].
  destruct v as [| | | | s | |data]; try discriminate.
  - cbn [kyvex_event]. rewrite clean_token_str. discriminate.
  - cbn [kyvex_event].
    destruct (is_str "error" (dict_get "status" data)) eqn:Herr.
    + intros [= <-]. exists data. split; [|split]; auto.
      apply String.eqb_neq in Hne. repeat split; auto. now exists line.
    + destruct (track_mode _ _) as [[m c]|e]; cbn [bind snd fst];
        [|discriminate].
      destruct (clean_token c); discriminate.
Qed.

Lemma kyvex_stream_return (loads : string -> decoded)
  (ls : list string) (fault : option exn) (st : state) (r : result) :
  kyvex_stream loads ls fault st = OK (inr r) ->
  exists raw_line data,
    In raw_line ls /\ decodes_to loads raw_line (VDict data) /\
    is_error_event data = true /\
    r = Failure None (Msg (error_message data)).
Proof.
  unfold kyvex_stream. revert st; induction ls as [|l ls IH]; intros st.
  - cbn. destruct fault; discriminate.
  - cbn [for_lines].
    destruct (kyvex_body loads st l) as [[st'|st'|r']|e] eqn:Hb;
      cbn [bind]; try discriminate.
    + intros H. destruct (IH _ H) as (raw & d & Hin & Hrest).
      exists raw, d. split; [now right | exact Hrest].
    + intros [= <-]. destruct (kyvex_body_return _ _ _ _ Hb) as (d & H).
      exists l, d. split; [now left | exact H].
Qed.

(** X5: the shapes of the results of the main path.  A success echoes the
    flags of the payload that was posted.  A failure has an error code
    exactly when the upstream answered with a status other than 200, and the
    code is that status; the message of a failure without a code is the
    description of a caught exception, or the message of an error event:
    the truthy [error_message] of an object with status error that a line
    of a 200 response decodes to. *)
Theorem kyvex_aggregate_shapes (loads : string -> decoded)
  (p : payload) (post : payload -> upstream) :
  match kyvex_aggregate loads p post with
  | Success m _ _ _ => m = kyvex_meta p
  | Failure (Some c) _ =>
      exists resp,
        post p = PostReturns resp /\ status_code resp = c /\ c <> 200%Z
  | Failure None (StrOf _) => True
  | Failure None (Msg v) =>
      truthy v = true /\
      exists resp raw_line data,
        post p = PostReturns resp /\ status_code resp = 200%Z /\
        In raw_line (lines resp) /\
        decodes_to loads raw_line (VDict data) /\
        is_error_event data = true /\
        v = error_message data
  end.
Proof.
  unfold kyvex_aggregate. destruct (post p) as [e|resp]; [exact I|].
  destruct (status_code resp =? 200)%Z eqn:Hs; cbn [negb].
  - apply Z.eqb_eq in Hs.
    destruct (kyvex_stream _ _ _ _) as [[st|r]|e] eqn:Hk; cbn; auto.
    destruct (kyvex_stream_return _ _ _ _ _ Hk)
      as (raw & d & Hin & Hd & Herr & ->).
    split; [apply error_message_truthy|]. now exists resp, raw, d.
  - apply Z.eqb_neq in Hs. cbn. now exists resp.
Qed.

(** One line of the main loop adds to one text and adds at most two
    images. *)
Lemma kyvex_body_grows (loads : string -> decoded) (st st' : state)
  (raw_line : string) :
  kyvex_body loads st raw_line = OK (Next st') ->
  exists t more,
    images st' = (images st ++ more)%list /\ (length more <= 2)%nat /\
    ((full_response st' = full_response st ++ t /\
      full_thought st' = full_thought st) \/
     (full_thought st' = full_thought st ++ t /\
      full_response st' = full_response st)).
Proof.
  assert (Hsame : exists t more,
    images st = (images st ++ more)%list /\ (length more <= 2)%nat /\
    ((full_response st = full_response st ++ t /\
      full_thought st = full_thought st) \/
     (full_thought st = full_thought st ++ t /\
      full_response st = full_response st))).
  { exists "", []. rewrite app_nil_r, append_nil_r. cbn. auto. }
  unfold kyvex_body.
  destruct ((Py.strip raw_line =? "") || _);
    [intros [= <-]; exact Hsame|].
  destruct (unframe _) as [line|]; [|discriminate].
  destruct (loads line) as [v| |e];
    [|intros [= <-]; exact Hsame|discriminate].
  destruct v as [| | | | s | |data]; cbn [kyvex_event];
    try (intros [= <-]; exact Hsame).
  - rewrite clean_token_str. cbn [bind]. intros [= <-].
    exists (clean_text s), []. rewrite app_nil_r. cbn. auto.
  - destruct (is_str "error" _); [discriminate|].
    destruct (track_mode _ _) as [[m c]|e]; cbn [bind snd fst];
      [|discriminate].
    destruct (clean_token c) as [t|e]; cbn [bind]; [|discriminate].
    intros [= <-].
    exists t,
      ((if truthy (dict_get "imageBase64" data)
        then [Image Base64 (dict_get "imageBase64" data)] else [])
       ++ (if truthy (dict_get "imageUrl" data)
           then [Image Url (dict_get "imageUrl" data)] else []))%list.
    split; [|split].
    + unfold append_if_truthy.
      destruct m; cbn [append_token images fst];
        destruct (truthy (dict_get "imageBase64" data));
        destruct (truthy (dict_get "imageUrl" data));
        rewrite <- ?app_assoc, ?app_nil_r; reflexivity.
    + destruct (truthy (dict_get "imageBase64" data));
        destruct (truthy (dict_get "imageUrl" data)); cbn; lia.
    + destruct m; cbn; auto.
Qed.

(** X6: the main loop only appends.  After any lines that are read through,
    the visible text, the reasoning text and the image list each start with
    what they held before, and the image list has grown by at most two refs
    for each line. *)
Theorem kyvex_loop_appends (loads : string -> decoded)
  (ls : list string) (st st' : state) :
  reads_through (kyvex_body loads) ls st st' ->
  exists r t more,
    full_response st' = full_response st ++ r /\
    full_thought st' = full_thought st ++ t /\
    images st' = (images st ++ more)%list /\
    (length more <= 2 * length ls)%nat.
Proof.
  induction 1 as [st|l ls st st1 st2 Hl _ IH].
  - exists "", "", []. rewrite app_nil_r, !append_nil_r. cbn. auto.
  - destruct IH as (r & t & more & Hr & Ht & Hi & Hn).
    destruct (kyvex_body_grows _ _ _ _ Hl) as (t1 & m1 & Hi1 & Hn1 & Hch).
    rewrite Hr, Ht, Hi, Hi1.
    destruct Hch as [[-> ->] | [-> ->]].
    + exists (t1 ++ r), t, (m1 ++ more)%list.
      rewrite append_assoc, <- app_assoc, length_app. cbn [length].
      repeat split; auto. lia.
    + exists r, (t1 ++ t), (m1 ++ more)%list.
      rewrite append_assoc, <- app_assoc, length_app. cbn [length].
      repeat split; auto. lia.
Qed.

Lemma kyvex_loop_appends_witness :
  exists r t more,
    "ab" = "a" ++ r /\ "x" = "x" ++ t /\
    [Image Url (VStr "u")] = ([] ++ more)%list /\ (length more <= 2 * 1)%nat.
Proof.
  refine (kyvex_loop_appends json_loads [q "{'token':'b','imageUrl':'u'}"]
            (State "a" "x" [] ModeResponse)
            (State "ab" "x" [Image Url (VStr "u")] ModeResponse) _).
  eapply reads_cons; [reflexivity | apply reads_nil].
Defined.

(** One line of the image loop appends to the response and adds at most
    four images. *)
Lemma imagen_body_grows (loads : string -> decoded)
  (st st' : imagen_state) (raw_line : string) :
  imagen_body loads st raw_line = OK (Next st') ->
  exists t more,
    i_full_response st' = i_full_response st ++ t /\
    i_images st' = (i_images st ++ more)%list /\ (length more <= 4)%nat.
Proof.
  unfold imagen_body. destruct (raw_line =? "").
  { intros [= <-]. exists "", []. rewrite app_nil_r, append_nil_r. cbn.
    repeat split; lia. }
  destruct (unframe _) as [content|]; [|discriminate].
  destruct (imagen_decode loads content (i_images st)) as [chunk imgs] eqn:Hd.
  assert (Hstruct : exists m0, imgs = (i_images st ++ m0)%list /\
                               (length m0 <= 2)%nat).
  { unfold imagen_decode in Hd.
    assert (Hnone : exists m0, i_images st = (i_images st ++ m0)%list /\
                               (length m0 <= 2)%nat).
    { exists []. rewrite app_nil_r. cbn. auto. }
    destruct (Py.startswith "{" content || Py.startswith "[" content).
    - destruct (loads content) as [[| | | | | |data]| |e];
        try (injection Hd as _ <-; exact Hnone).
      injection Hd as _ <-.
      exists ((if truthy (dict_get "imageUrl" data)
               then [Image Url (dict_get "imageUrl" data)] else [])
              ++ (if truthy (dict_get "imageBase64" data)
                  then [Image Base64 (dict_get "imageBase64" data)] else []))%list.
      unfold append_if_truthy.
      destruct (truthy (dict_get "imageUrl" data));
        destruct (truthy (dict_get "imageBase64" data));
        rewrite <- ?app_assoc, ?app_nil_r; cbn; split; auto; lia.
    - destruct (_ && _); [destruct (loads content)|];
        injection Hd as _ <-; exact Hnone. }
  destruct Hstruct as (m0 & -> & Hn0).
  destruct chunk; cbn [as_str bind]; try discriminate.
  rewrite clean_token_str. cbn [bind]. intros [= <-].
  exists (clean_text s), (m0 ++ b64_refs s ++ url_refs s)%list.
  cbn [i_full_response i_images]. split; [reflexivity|]. split.
  - unfold imagen_scan, b64_refs, url_refs.
    destruct (search_b64 s); destruct (search_url s) as [url|];
      try destruct (url_is_image url);
      rewrite <- ?app_assoc, ?app_nil_r; reflexivity.
  - rewrite !length_app. unfold b64_refs, url_refs.
    destruct (search_b64 s); destruct (search_url s) as [url|];
      try destruct (url_is_image url); cbn; lia.
Qed.

(** X7: the image loop only appends.  After any lines that are read through,
    the response and the image list each start with what they held before,
    and the image list has grown by at most four refs for each line (two
    from the structured fields, two from the scans). *)
Theorem imagen_loop_appends (loads : string -> decoded)
  (ls : list string) (st st' : imagen_state) :
  reads_through (imagen_body loads) ls st st' ->
  exists r more,
    i_full_response st' = i_full_response st ++ r /\
    i_images st' = (i_images st ++ more)%list /\
    (length more <= 4 * length ls)%nat.
Proof.
  induction 1 as [st|l ls st st1 st2 Hl _ IH].
  - exists "", []. rewrite app_nil_r, append_nil_r. cbn. repeat split; lia.
  - destruct IH as (r & more & Hr & Hi & Hn).
    destruct (imagen_body_grows _ _ _ _ Hl) as (t1 & m1 & Hr1 & Hi1 & Hn1).
    rewrite Hr, Hi, Hr1, Hi1.
    exists (t1 ++ r), (m1 ++ more)%list.
    rewrite append_assoc, <- app_assoc, length_app. cbn [length].
    repeat split; auto. lia.
Qed.

Lemma imagen_loop_appends_witness :
  exists r more,
    "ab https://x/1.png" = "a" ++ r /\
    [Image Url (VStr "https://x/1.png"); Image Url (VStr "https://x/1.png")] =
      ([] ++ more)%list /\
    (length more <= 4 * 1)%nat.
Proof.
  refine (imagen_loop_appends json_loads
            [q "{'content':'b https://x/1.png','imageUrl':'https://x/1.png'}"]
            (ImagenState "a" [])
            (ImagenState "ab https://x/1.png"
               [Image Url (VStr "https://x/1.png");
                Image Url (VStr "https://x/1.png")]) _).
  eapply reads_cons; [reflexivity | apply reads_nil].
Defined.

(** *** More on the token normalizer *)

Lemma prefix_length (p s : string) :
  String.prefix p s = true -> (String.length p <= String.length s)%nat.
Proof.
  intros H. destruct (prefix_split _ _ H) as [t ->].
  rewrite length_append. lia.
Qed.

Lemma no_char_contains (c : ascii) (x s : string) :
  no_char c s = true -> Py.contains (String c x) s = false.
Proof.
  unfold no_char. induction s as [|d s IH]; [reflexivity|].
  cbn [all_chars]. intros H. apply andb_true_iff in H as [Hd Hs].
  cbn [Py.contains String.prefix]. rewrite (IH Hs).
  destruct (ascii_dec c d) as [->|]; [|reflexivity].
  now rewrite Ascii.eqb_refl in Hd.
Qed.

Lemma sub_edge_quotes_plain (b : bool) (s : string) :
  no_char Py.quote s = true -> sub_edge_quotes b s = s.
Proof.
  unfold no_char. revert b; induction s as [|d s IH]; intros b; [reflexivity|].
  cbn [all_chars]. intros H. apply andb_true_iff in H as [Hd Hs].
  cbn [sub_edge_quotes]. apply negb_true_iff in Hd. rewrite Hd.
  cbn [andb]. now rewrite (IH false Hs).
Qed.

(** X8: a text that holds no backslash and no double quote is its own
    normal form. *)
Theorem clean_text_plain (s : string) :
  no_char Py.backslash s = true -> no_char Py.quote s = true ->
  clean_text s = s /\ clean_token (VStr s) = OK s.
Proof.
  intros Hb Hq.
  assert (H : clean_text s = s).
  { unfold clean_text, Py.replace, esc.
    rewrite (replace_from_absent _ _ s (no_char_contains _ _ _ Hb)).
    rewrite (replace_from_absent _ _ s (no_char_contains _ _ _ Hb)).
    rewrite (sub_edge_quotes_plain _ _ Hq).
    apply replace_from_absent, no_char_contains, Hb. }
  split; [exact H|]. now rewrite clean_token_str, H.
Qed.

Lemma clean_text_plain_witness :
  clean_text "Hello, world: <think>" = "Hello, world: <think>" /\
  clean_token (VStr "Hello, world: <think>") = OK "Hello, world: <think>".
Proof.
  apply (clean_text_plain "Hello, world: <think>"); reflexivity.
Defined.

Lemma replace_from_length (old new : string) (k : nat) (s : string) :
  (String.length new <= String.length old)%nat ->
  (String.length (Py.replace_from old new k s) <= String.length s - k)%nat.
Proof.
  intros Hlen. revert k; induction s as [|c s IH]; intros k; [cbn; lia|].
  destruct k as [|k]; cbn [Py.replace_from].
  - destruct (String.prefix old (String c s)) eqn:Hp.
    + apply prefix_length in Hp. cbn [String.length] in Hp |- *.
      rewrite length_append. specialize (IH (String.length old - 1)%nat). lia.
    + cbn [String.length]. specialize (IH 0%nat). lia.
  - cbn [String.length]. specialize (IH k). lia.
Qed.

Lemma sub_edge_quotes_length (b : bool) (s : string) :
  (String.length (sub_edge_quotes b s) <= String.length s)%nat.
Proof.
  revert b; induction s as [|c s IH]; intros b; [cbn; lia|].
  cbn [sub_edge_quotes]. specialize (IH false).
  destruct (_ && _); cbn [String.length]; lia.
Qed.

(** X9: the normalizer never makes a text longer. *)
Theorem clean_text_length (s : string) :
  (String.length (clean_text s) <= String.length s)%nat.
Proof.
  unfold clean_text, Py.replace, esc, chr.
  pose proof (replace_from_length
                (String Py.backslash (String "n" "")) (String Py.newline "")
                0 s ltac:(cbn; lia)) as H1.
  pose proof (replace_from_length
                (String Py.backslash (String "t" "")) (String Py.tab "") 0
                (Py.replace_from (String Py.backslash (String "n" ""))
                   (String Py.newline "") 0 s) ltac:(cbn; lia)) as H2.
  pose proof (sub_edge_quotes_length true
                (Py.replace_from (String Py.backslash (String "t" ""))
                   (String Py.tab "") 0
                   (Py.replace_from (String Py.backslash (String "n" ""))
                      (String Py.newline "") 0 s))) as H3.
  pose proof (replace_from_length
                (String Py.backslash (String Py.quote ""))
                (String Py.quote "") 0
                (sub_edge_quotes true
                   (Py.replace_from (String Py.backslash (String "t" ""))
                      (String Py.tab "") 0
                      (Py.replace_from (String Py.backslash (String "n" ""))
                         (String Py.newline "") 0 s))) ltac:(cbn; lia)) as H4.
  lia.
Qed.

(** *** More on the alias table and the routing *)

Lemma model_values_are_fixed (k v : string) :
  map_lookup k MODEL_MAP = Some v -> resolve_model v = v.
Proof.
  unfold MODEL_MAP. cbn [map_lookup].
  repeat (destruct (k =? _); [intros [= <-]; reflexivity|]).
  discriminate.
Qed.

(** X10: the resolution is idempotent: what a model name resolves to
    resolves to itself. *)
Theorem resolve_model_idempotent (s : string) :
  resolve_model (resolve_model s) = resolve_model s.
Proof.
  unfold resolve_model at 2 3. unfold select_model, map_get_default.
  destruct (map_lookup (Py.lower s) MODEL_MAP) as [v|] eqn:E.
  - exact (model_values_are_fixed _ _ E).
  - unfold resolve_model, select_model, map_get_default.
    now rewrite lower_idempotent, E.
Qed.

Lemma select_model_imagen (k : string) :
  (select_model k =? "gemini-imagen-4") = selects_imagen k.
Proof.
  unfold select_model, map_get_default, selects_imagen, MODEL_MAP.
  cbn [map_lookup].
  repeat match goal with
         | |- context [k =? ?x] =>
             destruct (String.eqb_spec k x) as [->|?]; [reflexivity|]
         end.
  reflexivity.
Qed.

(** X11: which requests go to the image handler.  A str model selects it
    exactly when its lowercase form is 6, imagen or gemini-imagen-4; every
    other str model, and a request without a model, is aggregated on the
    main path, with the resolved model and with each flag of the payload
    equal to [str_to_bool] of its parameter: on that path the image flag is
    never forced. *)
Theorem imagen_routing (loads : string -> decoded) (params : dict)
  (post : payload -> upstream) :
  (forall s, resolve_model s = "gemini-imagen-4" <->
             selects_imagen (Py.lower s) = true) /\
  (forall s,
      dict_lookup "model" params = Some (VStr s) ->
      process_kyvex_request loads params post =
      OK (if selects_imagen (Py.lower s)
          then process_imagen_specific loads params post
          else kyvex_aggregate loads
                 (Payload (dict_get_default "prompt" (VStr "") params)
                    (resolve_model s)
                    (str_to_bool (dict_get_default "web" (VBool false) params))
                    (str_to_bool (dict_get_default "image" (VBool false) params))
                    (str_to_bool
                       (dict_get_default "reasoning" (VBool false) params))
                    (str_to_bool (dict_get_default "auto" (VBool false) params)))
                 post)) /\
  (dict_lookup "model" params = None ->
   process_kyvex_request loads params post =
   OK (kyvex_aggregate loads
         (Payload (dict_get_default "prompt" (VStr "") params) "kyvex"
            (str_to_bool (dict_get_default "web" (VBool false) params))
            (str_to_bool (dict_get_default "image" (VBool false) params))
            (str_to_bool (dict_get_default "reasoning" (VBool false) params))
            (str_to_bool (dict_get_default "auto" (VBool false) params)))
         post)).
Proof.
  split; [|split].
  - intros s. unfold resolve_model. rewrite <- select_model_imagen.
    split; intros H.
    + rewrite H. reflexivity.
    + now apply String.eqb_eq.
  - intros s Hm. unfold process_kyvex_request, dict_get_default at 1.
    rewrite Hm. cbn [py_lower bind]. rewrite select_model_imagen.
    destruct (selects_imagen (Py.lower s)) eqn:Hsel; [reflexivity|].
    unfold kyvex_payload. rewrite select_model_imagen, Hsel. reflexivity.
  - intros Hm. unfold process_kyvex_request, dict_get_default at 1.
    rewrite Hm. reflexivity.
Qed.

Lemma imagen_routing_witness :
  process_kyvex_request json_loads
    [("prompt", VStr "a cat"); ("model", VStr "Imagen"); ("web", VStr "true")]
    (fun _ => PostRaises (TransportError "down")) =
  OK (process_imagen_specific json_loads
        [("prompt", VStr "a cat"); ("model", VStr "Imagen"); ("web", VStr "true")]
        (fun _ => PostRaises (TransportError "down"))).
Proof.
  refine (proj1 (proj2 (imagen_routing json_loads
            [("prompt", VStr "a cat"); ("model", VStr "Imagen");
             ("web", VStr "true")]
            (fun _ => PostRaises (TransportError "down")))) "Imagen" _).
  reflexivity.
Defined.

(** *** The chat route *)

(** X12: the status code of the chat route.  A missing or falsy prompt is
    answered with 400 and the fixed message, whatever the other parameters
    are and without a call of the upstream; otherwise the code is 200 for a
    success and 500 for a failure, and an exception leaves the route
    exactly when the model parameter is there and is no str. *)
Theorem chat_endpoint_status (loads : string -> decoded) (params : dict)
  (post : payload -> upstream) :
  (truthy (dict_get "prompt" params) = false ->
   chat_endpoint loads params post = OK (missing_prompt, 400%Z)) /\
  (truthy (dict_get "prompt" params) = true ->
   (forall r c,
       chat_endpoint loads params post = OK (r, c) ->
       (c = 200%Z /\ success r = true) \/ (c = 500%Z /\ success r = false)) /\
   ((exists e, chat_endpoint loads params post = Raise e) <->
    (exists v, dict_lookup "model" params = Some v /\
               forall s, v <> VStr s))).
Proof.
  unfold chat_endpoint. split.
  - intros H. now rewrite H.
  - intros H. rewrite H. cbn [negb]. split.
    + intros r c.
      destruct (process_kyvex_request loads params post) as [r'|e];
        cbn [bind]; [|discriminate].
      intros [= <- <-]. destruct r'; cbn; auto.
    + destruct (process_kyvex_request loads params post) as [r'|e] eqn:Hp;
        cbn [bind].
      * split; [intros [e He]; discriminate|].
        intros (v & Hv & Hns).
        destruct (proj1 (process_kyvex_request_returns loads params post)
                    (ex_intro _ r' Hp)) as [Hn | [s Hs]].
        -- congruence.
        -- rewrite Hs in Hv. injection Hv as <-. now destruct (Hns s).
      * split; [intros _|intros _; now exists e].
        destruct (dict_lookup "model" params) as [v|] eqn:Hv.
        -- exists v. split; [reflexivity|]. intros s ->.
           assert (Hex : exists r, process_kyvex_request loads params post = OK r).
           { apply process_kyvex_request_returns. right. now exists s. }
           destruct Hex as [r Hr]. congruence.
        -- assert (Hex : exists r, process_kyvex_request loads params post = OK r).
           { apply process_kyvex_request_returns. now left. }
           destruct Hex as [r Hr]. congruence.
Qed.

Lemma chat_endpoint_status_witness :
  chat_endpoint json_loads [("prompt", VStr ""); ("model", VInt 3)]
    (fun _ => PostRaises (TransportError "down")) =
  OK (missing_prompt, 400%Z).
Proof.
  apply (proj1 (chat_endpoint_status json_loads
                  [("prompt", VStr ""); ("model", VInt 3)]
                  (fun _ => PostRaises (TransportError "down")))).
  reflexivity.
Defined.

(** *** Events of the main path *)

(** X13: the mode persists.  Structured events whose texts hold no marker
    leave the mode as it is, and their normalized texts are appended, in
    order, to the text of that mode; the other text stays as it is. *)
Theorem plain_events_accumulate (loads : string -> decoded)
  (ls cs : list string) (st : state) :
  plain_events loads ls cs ->
  exists st',
    reads_through (kyvex_body loads) ls st st' /\
    current_mode st' = current_mode st /\
    match current_mode st with
    | ModeThink =>
        full_thought st' = full_thought st ++ concat_clean cs /\
        full_response st' = full_response st
    | ModeResponse =>
        full_response st' = full_response st ++ concat_clean cs /\
        full_thought st' = full_thought st
    end.
Proof.
  intros H. revert st.
  induction H as [|raw data c ls cs Hd Herr Hc Hopen Hclose _ IH]; intros st.
  - exists st. split; [apply reads_nil|]. split; [reflexivity|].
    cbn [concat_clean fold_right]. rewrite !append_nil_r.
    destruct (current_mode st); auto.
  - destruct (kyvex_event_text st data c Herr Hc) as (m & c' & Ht & Hev).
    rewrite track_mode_str in Ht. cbv zeta in Ht.
    rewrite Hopen, Hclose in Ht. injection Ht as <- <-.
    rewrite <- (kyvex_body_decoded loads st raw _ Hd) in Hev.
    destruct (IH (append_token st
                    (append_if_truthy Url (dict_get "imageUrl" data)
                       (append_if_truthy Base64 (dict_get "imageBase64" data)
                          (images st)))
                    (current_mode st) (clean_text c)))
      as (st' & Hr & Hm & Htxt).
    exists st'. split; [exact (reads_cons _ _ _ _ _ _ Hev Hr)|].
    cbn [concat_clean fold_right]. fold (concat_clean cs).
    destruct (current_mode st) eqn:Hmode; cbn in Hm, Htxt;
      (split; [exact Hm|]); destruct Htxt as [-> ->];
      now rewrite append_assoc.
Qed.

Lemma plain_events_accumulate_witness :
  exists st',
    reads_through (kyvex_body json_loads)
      [q "{'token':'step one, '}"; q "{'content':'step two'}"]
      (State "" "plan: " [] ModeThink) st' /\
    current_mode st' = ModeThink /\
    full_thought st' = "plan: step one, step two" /\
    full_response st' = "".
Proof.
  refine (plain_events_accumulate json_loads
            [q "{'token':'step one, '}"; q "{'content':'step two'}"]
            ["step one, "; "step two"]
            (State "" "plan: " [] ModeThink) _).
  eapply (plain_cons json_loads _ [("token", VStr "step one, ")]);
    [line_by_evaluation | reflexivity | reflexivity | reflexivity
    | reflexivity |].
  eapply (plain_cons json_loads _ [("content", VStr "step two")]);
    [line_by_evaluation | reflexivity | reflexivity | reflexivity
    | reflexivity |].
  apply plain_nil.
Defined.

Lemma track_mode_fault (m : mode) (v : value) (e : exn) :
  token_fault v = Some e ->
  (track_mode m v = Raise e) \/
  (exists mc, track_mode m v = OK mc /\ clean_token (snd mc) = Raise e).
Proof.
  destruct v as [|b|n|f|s|l|d]; cbn [token_fault]; try discriminate.
  - intros [= <-]. now left.
  - intros [= <-]. now left.
  - intros [= <-]. now left.
  - destruct l as [|x l]; [discriminate|]. intros [= <-].
    unfold track_mode. cbn [py_in bind].
    destruct (existsb (is_str "<think>") (x :: l)); cbn [py_replace bind];
      [now left|].
    cbn [snd py_in bind].
    destruct (existsb (is_str "</think>") (x :: l)); cbn [py_replace bind];
      [now left|].
    right. eexists. split; reflexivity.
  - destruct d as [|x d]; [discriminate|]. intros [= <-].
    unfold track_mode. cbn [py_in bind].
    destruct (dict_has "<think>" (x :: d)); cbn [py_replace bind];
      [now left|].
    cbn [snd py_in bind].
    destruct (dict_has "</think>" (x :: d)); cbn [py_replace bind];
      [now left|].
    right. eexists. split; reflexivity.
Qed.

(** X14: a token that is no str fails the request.  When the lines before
    it are read through and a structured event that is no error signal
    carries a number or a boolean as its token, the request fails with the
    description of a TypeError; a non-empty list or dict as token fails it
    with that of an AttributeError.  Nothing gathered before is in the
    result. *)
Theorem bad_token_fails_the_request (loads : string -> decoded)
  (p : payload) (post : payload -> upstream) (body : string)
  (pre : list string) (raw_line : string) (rest : list string)
  (fault : option exn) (st : state) (data : dict) (e : exn) :
  post p = PostReturns (Response 200 body (pre ++ raw_line :: rest) fault) ->
  reads_through (kyvex_body loads) pre initial_state st ->
  decodes_to loads raw_line (VDict data) ->
  is_error_event data = false ->
  token_fault (dict_get "token" data) = Some e ->
  kyvex_aggregate loads p post = Failure None (StrOf e).
Proof.
  intros Hpost Hpre Hd Herr Hf.
  assert (Hc : event_content data = dict_get "token" data).
  { unfold event_content. destruct (dict_get "token" data); try reflexivity.
    discriminate Hf. }
  assert (Hb : kyvex_body loads st raw_line = Raise e).
  { rewrite (kyvex_body_decoded _ _ _ _ Hd). cbn [kyvex_event].
    unfold is_error_event in Herr. rewrite Herr, Hc.
    destruct (track_mode_fault (current_mode st) _ _ Hf)
      as [-> | (mc & -> & Hct)]; [reflexivity|].
    cbn [bind]. now rewrite Hct. }
  unfold kyvex_aggregate, kyvex_stream. rewrite Hpost.
  cbn [status_code lines read_fault Z.eqb Pos.eqb negb].
  rewrite (for_lines_reads_through _ _ _ _ _ _ Hpre).
  cbn [for_lines]. now rewrite Hb.
Qed.

Lemma bad_token_fails_the_request_witness :
  kyvex_aggregate json_loads (Payload (VStr "hi") "kyvex" false false false false)
    (fun _ => PostReturns (Response 200 ""
       [q "{'token':'partial'}"; q "{'token':['a']}"] None)) =
  Failure None (StrOf AttributeError).
Proof.
  refine (bad_token_fails_the_request json_loads _ _ ""
            [q "{'token':'partial'}"] (q "{'token':['a']}") [] None
            (State "partial" "" [] ModeResponse)
            [("token", VList [VStr "a"])] AttributeError _ _ _ _ _).
  - reflexivity.
  - eapply reads_cons; [reflexivity | apply reads_nil].
  - line_by_evaluation.
  - reflexivity.
  - reflexivity.
Defined.

(** *** Lines of the image-generation path *)

(** X15: the image-generation path drops no line.  A line that is not the
    sentinel and that the decoder does not decode (it rejects the line or
    raises anything else), or that does not look like JSON
    (no brace or bracket at its start, no quotes around it), is taken as
    text: its normalized text is appended to the response and the two scans
    run on it. *)
Theorem imagen_keeps_undecoded_line (loads : string -> decoded)
  (st : imagen_state) (raw_line content : string) :
  raw_line <> "" ->
  unframe (Py.strip raw_line) = Some content ->
  (forall v, loads content <> Decoded v) \/
  (Py.startswith "{" content = false /\ Py.startswith "[" content = false /\
   Py.startswith (chr Py.quote) content && Py.endswith (chr Py.quote) content
     = false) ->
  imagen_body loads st raw_line =
  OK (Next (ImagenState (i_full_response st ++ clean_text content)
              (i_images st ++ b64_refs content ++ url_refs content)%list)).
Proof.
  intros Hne Hu H.
  assert (Hd : imagen_decode loads content (i_images st) =
               (VStr content, i_images st)).
  { unfold imagen_decode. destruct H as [Hl | (H1 & H2 & H3)].
    - destruct (loads content) as [v| |e]; [now destruct (Hl v)| |];
        (destruct (_ || _); [reflexivity|]); destruct (_ && _); reflexivity.
    - now rewrite H1, H2, H3. }
  unfold imagen_body. apply String.eqb_neq in Hne. rewrite Hne, Hu, Hd.
  cbn [as_str bind]. rewrite clean_token_str. cbn [bind].
  do 3 f_equal. unfold imagen_scan, b64_refs, url_refs.
  destruct (search_b64 content); destruct (search_url content) as [url|];
    try destruct (url_is_image url);
    rewrite ?app_nil_r, <- ?app_assoc; reflexivity.
Qed.

Lemma imagen_keeps_undecoded_line_witness :
  imagen_body json_loads (ImagenState "so far" []) ": keep-alive" =
  OK (Next (ImagenState "so far: keep-alive" [])).
Proof.
  refine (imagen_keeps_undecoded_line json_loads (ImagenState "so far" [])
            ": keep-alive" ": keep-alive" _ _ _).
  - discriminate.
  - reflexivity.
  - left. intros v. discriminate.
Defined.

(** *** White space around a line *)

Lemma rstrip_idempotent (s : string) : Py.rstrip (Py.rstrip s) = Py.rstrip s.
Proof.
  induction s as [|c s IH]; [reflexivity|].
  cbn [Py.rstrip]. destruct (Py.rstrip s) as [|d r] eqn:E.
  - destruct (Py.isspace c) eqn:Hc; [reflexivity|].
    cbn [Py.rstrip]. now rewrite Hc.
  - cbn [Py.rstrip] in IH |- *. now rewrite IH.
Qed.

Lemma lstrip_head (s : string) :
  Py.lstrip s = "" \/
  exists c r, Py.lstrip s = String c r /\ Py.isspace c = false.
Proof.
  induction s as [|c s IH]; [now left|].
  cbn [Py.lstrip]. destruct (Py.isspace c) eqn:Hc; [exact IH|].
  right. now exists c, s.
Qed.

Lemma strip_idempotent (s : string) : Py.strip (Py.strip s) = Py.strip s.
Proof.
  unfold Py.strip. destruct (lstrip_head s) as [-> | (c & r & -> & Hc)].
  - reflexivity.
  - assert (H : Py.lstrip (Py.rstrip (String c r)) = Py.rstrip (String c r)).
    { cbn [Py.rstrip]. destruct (Py.rstrip r); rewrite ?Hc;
        cbn [Py.lstrip]; now rewrite Hc. }
    rewrite H. apply rstrip_idempotent.
Qed.

(** X16: the white space around a line does not matter: on both paths a
    line gives what the trimmed line gives, from every state. *)
Theorem line_whitespace_is_ignored (loads : string -> decoded)
  (raw_line : string) :
  (forall st, kyvex_body loads st raw_line =
              kyvex_body loads st (Py.strip raw_line)) /\
  (forall st, imagen_body loads st raw_line =
              imagen_body loads st (Py.strip raw_line)).
Proof.
  split; intros st.
  - unfold kyvex_body. now rewrite strip_idempotent.
  - unfold imagen_body. rewrite strip_idempotent.
    destruct (raw_line =? "") eqn:E1.
    + apply String.eqb_eq in E1. now subst.
    + destruct (Py.strip raw_line =? "") eqn:E2; [|reflexivity].
      apply String.eqb_eq in E2. rewrite E2.
      destruct st as [resp imgs]. cbn. now rewrite append_nil_r.
Qed.

(** *** The flags and the model list *)

Lemma lower_empty (s : string) : (Py.lower s =? "") = (s =? "").
Proof. now destruct s. Qed.

(** X17: a flag given as a str is read without regard to case: two strs
    with the same lowercase form give the same flag. *)
Theorem str_to_bool_ignores_case (a b : string) :
  Py.lower a = Py.lower b -> str_to_bool (VStr a) = str_to_bool (VStr b).
Proof.
  intros H. unfold str_to_bool. cbn [truthy].
  rewrite <- (lower_empty a), <- (lower_empty b), H. reflexivity.
Qed.

Lemma str_to_bool_ignores_case_witness :
  str_to_bool (VStr "TRUE") = str_to_bool (VStr "true").
Proof. apply str_to_bool_ignores_case. reflexivity. Defined.

(** X18: the list of models of the models route, in whatever order the set
    gives it, has six entries; every key of the alias table resolves to one
    of them, and each of them resolves to itself. *)
Theorem unique_models_are_canonical (l : list string) :
  unique_models l ->
  length l = 6%nat /\
  (forall k, In k (map fst MODEL_MAP) -> In (resolve_model k) l) /\
  (forall v, In v l -> resolve_model v = v).
Proof.
  intros [Hnd Hin].
  set (six := ["kyvex"; "claude-sonnet-4.5"; "gpt-5"; "gemini-2.5-pro";
               "grok-4"; "gemini-imagen-4"]).
  assert (Hsix : forall v, In v (map snd MODEL_MAP) <-> In v six).
  { intros v. cbn. intuition. }
  split; [|split].
  - assert (Hnd6 : NoDup six).
    { repeat constructor; cbn; intuition discriminate. }
    assert (Hp : Permutation l six).
    { apply NoDup_Permutation; auto.
      intros v. now rewrite Hin, Hsix. }
    now rewrite (Permutation_length Hp).
  - intros k Hk. apply Hin.
    cbn in Hk. repeat (destruct Hk as [<-|Hk]; [cbn; tauto|]). destruct Hk.
  - intros v Hv. apply Hin, Hsix in Hv. cbn in Hv.
    repeat (destruct Hv as [<-|Hv]; [reflexivity|]). destruct Hv.
Qed.

Lemma unique_models_are_canonical_witness :
  length ["grok-4"; "gpt-5"; "kyvex"; "gemini-imagen-4"; "gemini-2.5-pro";
          "claude-sonnet-4.5"] = 6%nat /\
  (forall k, In k (map fst MODEL_MAP) ->
             In (resolve_model k)
                ["grok-4"; "gpt-5"; "kyvex"; "gemini-imagen-4";
                 "gemini-2.5-pro"; "claude-sonnet-4.5"]) /\
  (forall v, In v ["grok-4"; "gpt-5"; "kyvex"; "gemini-imagen-4";
                   "gemini-2.5-pro"; "claude-sonnet-4.5"] ->
             resolve_model v = v).
Proof.
  apply unique_models_are_canonical. split.
  - repeat constructor; cbn; intuition discriminate.
  - intros v. cbn. intuition.
Defined.
